(** * Assignment2.py: reshaping, filtering and windowing of a climate table

    The script works on pandas DataFrames.  A frame is modelled the way
    pandas stores it: an index (one label per row) and a list of labelled
    columns, each column holding one cell per row.  Cells and labels are
    Python values: a missing value, an integer, a decimal number or a
    string.  Decimal cells carry an exact rational; the rounding of
    binary floating point is not part of the model. *)

From Stdlib Require Import String List ZArith QArith Bool Arith Lia.
From Stdlib Require Import Reals Qreals Lra.
Import ListNotations.
Open Scope string_scope.
Open Scope Z_scope.

(** ** Values *)

Inductive value : Type :=
| NaN
| Int (z : Z)
| Num (q : Q)
| Str (s : string).

(** [pd.isna] on one cell. *)
Definition isna (v : value) : bool :=
  match v with NaN => true | _ => false end.

Definition notna (v : value) : bool := negb (isna v).

(** [cell == s] for a string [s]: a missing or numeric cell is never equal. *)
Definition eq_str (s : string) (v : value) : bool :=
  match v with Str t => String.eqb t s | _ => false end.

(** One element of [Series.isin(values)] for a list of strings. *)
Definition isin1 (values : list string) (v : value) : bool :=
  existsb (fun s => eq_str s v) values.

(** Equality of labels, as an index lookup sees it. *)
Definition label_eqb (a b : value) : bool :=
  match a, b with
  | NaN, NaN => true
  | Int x, Int y => Z.eqb x y
  | Num x, Num y => Qeq_bool x y
  | Int x, Num y => Qeq_bool (inject_Z x) y
  | Num x, Int y => Qeq_bool x (inject_Z y)
  | Str x, Str y => String.eqb x y
  | _, _ => false
  end.

(** ** Exceptions *)

Inductive exn : Type :=
| KeyError
| IndexError
| ValueError
| NameError.

Inductive result (A : Type) : Type :=
| Ok (a : A)
| Raise (e : exn).
Arguments Ok {A} a.
Arguments Raise {A} e.

Definition rbind {A B} (r : result A) (k : A -> result B) : result B :=
  match r with Ok a => k a | Raise e => Raise e end.

Definition rmap {A B} (f : A -> B) (r : result A) : result B :=
  match r with Ok a => Ok (f a) | Raise e => Raise e end.

Declare Scope res_scope.
Delimit Scope res_scope with res.
Notation "x <- r ;; k" := (rbind r (fun x => k))
  (at level 61, r at next level, right associativity) : res_scope.

(** ** Python sequences *)

(** [l[i]] with Python's negative indices. *)
Definition py_index {A} (l : list A) (i : Z) : result A :=
  let n := Z.of_nat (length l) in
  let j := if i <? 0 then i + n else i in
  if (0 <=? j) && (j <? n)
  then match nth_error l (Z.to_nat j) with
       | Some a => Ok a
       | None => Raise IndexError
       end
  else Raise IndexError.

(** One bound of a slice against a sequence of length [n]: a negative bound
    counts from the end and everything is clamped into [0, n]. *)
Definition clamp (n : Z) (b : Z) : Z :=
  if b <? 0 then Z.max 0 (b + n) else Z.min b n.

(** [l[start:stop]]; [None] is an omitted bound. *)
Definition py_slice {A} (start stop : option Z) (l : list A) : list A :=
  let n := Z.of_nat (length l) in
  let a := match start with Some s => clamp n s | None => 0 end in
  let b := match stop with Some s => clamp n s | None => n end in
  firstn (Z.to_nat (b - a)) (skipn (Z.to_nat a) l).

(** Rows kept by a boolean mask. *)
Fixpoint select {A} (mask : list bool) (l : list A) : list A :=
  match mask, l with
  | m :: mask', x :: l' => if m then x :: select mask' l' else select mask' l'
  | _, _ => []
  end.

(** Element-wise [&] of two boolean series. *)
Fixpoint band (a b : list bool) : list bool :=
  match a, b with
  | x :: a', y :: b' => (x && y) :: band a' b'
  | _, _ => []
  end.

(** [RangeIndex(n)]. *)
Definition range_index (n : nat) : list value :=
  map (fun i => Int (Z.of_nat i)) (seq 0 n).

(** ** Frames *)

Definition column : Type := (value * list value)%type.

Record DataFrame : Type := mkFrame {
  index : list value;
  columns : list column
}.

Definition nrows (f : DataFrame) : nat := length (index f).
Definition ncols (f : DataFrame) : nat := length (columns f).
Definition labels (f : DataFrame) : list value := map fst (columns f).

(** Every column has one cell per row. *)
Definition wf (f : DataFrame) : Prop :=
  Forall (fun c => length (snd c) = nrows f) (columns f).

(** Row [i] of the frame, [f.iloc[i]]. *)
Definition iloc_row (i : nat) (f : DataFrame) : list value :=
  map (fun c => nth i (snd c) NaN) (columns f).

Definition rows (f : DataFrame) : list (list value) :=
  map (fun i => iloc_row i f) (seq 0 (nrows f)).

(** [f[name]]: the column with that label.  [read_csv] hands out distinct
    labels; were a label carried twice, the first column is taken here. *)
Fixpoint lookup_col (name : value) (cs : list column) : result (list value) :=
  match cs with
  | [] => Raise KeyError
  | c :: cs' => if label_eqb (fst c) name then Ok (snd c) else lookup_col name cs'
  end.

Definition getitem (f : DataFrame) (name : string) : result (list value) :=
  lookup_col (Str name) (columns f).

(** The rows, peeled off the columns one at a time. *)
Fixpoint rows_rec (n : nat) (cols : list (list value)) : list (list value) :=
  match n with
  | O => []
  | S n' => map (hd NaN) cols :: rows_rec n' (map (@tl value) cols)
  end.

(** Position of the column [f[name]] selects. *)
Fixpoint position (name : value) (cs : list column) : option nat :=
  match cs with
  | [] => None
  | c :: cs' => if label_eqb (fst c) name then Some 0%nat
                else option_map S (position name cs')
  end.

(** The rows with their index labels. *)
Definition records (f : DataFrame) : list (value * list value) :=
  combine (index f) (rows f).

(** The test of lines 50-52 on one row, given the positions of the two
    columns it reads. *)
Definition row_selected (country_list : list string) (indicator : string)
  (jc ji : nat) (r : list value) : bool :=
  isin1 country_list (nth jc r NaN) && eq_str indicator (nth ji r NaN).

(** [f[mask]] for a boolean series over the rows of [f]. *)
Definition getitem_mask (mask : list bool) (f : DataFrame) : DataFrame :=
  {| index := select mask (index f);
     columns := map (fun c => (fst c, select mask (snd c))) (columns f) |}.

(** [f.dropna(axis=1)]: a column stays when none of its cells is missing. *)
Definition complete (c : column) : bool := forallb notna (snd c).

Definition dropna (f : DataFrame) : DataFrame :=
  {| index := index f;
     columns := filter complete (columns f) |}.

(** Number of missing cells of a column, [c.isna().sum()]. *)
Definition count_na (c : column) : nat :=
  length (filter isna (snd c)).

(** The years a row reports: the positions at which it holds a value. *)
Definition reports (r : list value) (j : nat) : bool :=
  notna (nth j r NaN).

(** Column positions reported by every row of the frame. *)
Definition reported_by_all (f : DataFrame) (j : nat) : bool :=
  forallb (fun r => reports r j) (rows f).

(** Pair every element with its position. *)
Definition enumerate {A} (l : list A) : list (nat * A) :=
  combine (seq 0 (length l)) l.

(** ** Column and row operations of pandas used by the script *)

(** [f.iloc[:, 0]]: the first column as a series. *)
Definition iloc_col0 (f : DataFrame) : result column :=
  match columns f with
  | [] => Raise IndexError
  | c :: _ => Ok c
  end.

(** [f.iloc[:, start:stop]]. *)
Definition iloc_cols (start stop : option Z) (f : DataFrame) : DataFrame :=
  {| index := index f;
     columns := py_slice start stop (columns f) |}.

(** [pd.concat([s, f], axis=1)] for a series and a frame over the same rows. *)
Definition concat (s : column) (f : DataFrame) : DataFrame :=
  {| index := index f;
     columns := s :: columns f |}.

Definition has_label (name : value) (c : column) : bool :=
  label_eqb (fst c) name.

(** [f.set_index([name])]: the named column becomes the index and leaves
    the columns.  A missing label is a KeyError; a label carried by several
    columns selects a frame instead of a series, which no index can be
    built from. *)
Definition set_index (name : string) (f : DataFrame) : result DataFrame :=
  match filter (has_label (Str name)) (columns f) with
  | [] => Raise KeyError
  | [c] => Ok {| index := snd c;
                 columns := filter (fun c => negb (has_label (Str name) c))
                                   (columns f) |}
  | _ :: _ :: _ => Raise ValueError
  end.

(** [f.drop(names, axis=1)]: every name must be a column label. *)
Definition drop_columns (names : list string) (f : DataFrame) : result DataFrame :=
  if forallb (fun n => existsb (has_label (Str n)) (columns f)) names
  then Ok {| index := index f;
             columns := filter (fun c => negb (existsb (fun n => has_label (Str n) c) names))
                               (columns f) |}
  else Raise KeyError.

(** [f.T]: index and column labels change places. *)
Definition transpose (f : DataFrame) : DataFrame :=
  {| index := labels f;
     columns := map (fun il => (snd il, iloc_row (fst il) f)) (enumerate (index f)) |}.

(** [f.reset_index()]: the old index becomes the first column, named
    'index', or 'level_0' when 'index' is taken. *)
Definition reset_index (f : DataFrame) : result DataFrame :=
  let taken n := existsb (label_eqb (Str n)) (labels f) in
  if negb (taken "index")
  then Ok {| index := range_index (nrows f);
             columns := (Str "index", index f) :: columns f |}
  else if negb (taken "level_0")
  then Ok {| index := range_index (nrows f);
             columns := (Str "level_0", index f) :: columns f |}
  else Raise ValueError.

(** [f.reset_index(drop=True)]. *)
Definition reset_index_drop (f : DataFrame) : DataFrame :=
  {| index := range_index (nrows f);
     columns := columns f |}.

(** [f.iloc[0]]: the first row as a series. *)
Definition iloc0 (f : DataFrame) : result (list value) :=
  match index f with
  | [] => Raise IndexError
  | _ :: _ => Ok (iloc_row 0 f)
  end.

(** [f.columns = new_labels]. *)
Definition set_columns (new_labels : list value) (f : DataFrame) : result DataFrame :=
  if Nat.eqb (length new_labels) (ncols f)
  then Ok {| index := index f;
             columns := map (fun lc => (fst lc, snd (snd lc)))
                            (combine new_labels (columns f)) |}
  else Raise ValueError.

(** [f.drop(index=labels)]: every label must be in the index. *)
Definition drop_index (ls : list value) (f : DataFrame) : result DataFrame :=
  if forallb (fun l => existsb (label_eqb l) (index f)) ls
  then Ok (getitem_mask (map (fun i => negb (existsb (label_eqb i) ls)) (index f)) f)
  else Raise KeyError.

(** [f.rename(columns={old: new})]. *)
Definition rename_label (old new : string) (l : value) : value :=
  if label_eqb l (Str old) then Str new else l.

Definition rename (old new : string) (f : DataFrame) : DataFrame :=
  {| index := index f;
     columns := map (fun c => (rename_label old new (fst c), snd c)) (columns f) |}.

(** ** The stages of the script as functions of the raw table *)

Open Scope res_scope.

(** Lines 20-27 and 31 of [read_data]: the cleaned, year-indexed table. *)
Definition df_transpose_of (df : DataFrame) : result DataFrame :=
  t <- reset_index (transpose df) ;;
  header <- iloc0 t ;;
  t <- set_columns header t ;;
  t <- drop_index [Int 0; Int 1; Int 2; Int 3] t ;;
  Ok (reset_index_drop (rename "Country Name" "Year" t)).

Definition df_clean_of (df : DataFrame) : result DataFrame :=
  rmap dropna (df_transpose_of df).

(** Lines 50-51, 93-94 and 138-139: rows of the selected countries and
    indicators. *)
Definition df_sub_of (df : DataFrame) (country_list indicator_list : list string)
  : result DataFrame :=
  cn <- getitem df "Country Name" ;;
  ind <- getitem df "Indicator Name" ;;
  Ok (getitem_mask (band (map (isin1 country_list) cn)
                         (map (isin1 indicator_list) ind)) df).

(** Lines 52 and 140: the rows of one indicator. *)
Definition df_pop_of (df : DataFrame) (country_list indicator_list : list string)
  (idx : Z) : result DataFrame :=
  df_sub <- df_sub_of df country_list indicator_list ;;
  ind <- getitem df_sub "Indicator Name" ;;
  sel <- py_index indicator_list idx ;;
  Ok (getitem_mask (map (eq_str sel) ind) df_sub).

(** Lines 57 and 142. *)
Definition df_pop1_of (df : DataFrame) (country_list indicator_list : list string)
  (idx : Z) : result DataFrame :=
  rmap dropna (df_pop_of df country_list indicator_list idx).

(** Lines 60-63: the columns set beside the first one for the bar chart. *)
Definition bar_window (idx : Z) (df_pop1 : DataFrame) : DataFrame :=
  if idx =? 1
  then iloc_cols (Some (-6)) None df_pop1
  else iloc_cols (Some (-8)) (Some (-2)) df_pop1.

(** Line 143: the same for the line chart. *)
Definition line_window (df_pop1 : DataFrame) : DataFrame :=
  iloc_cols (Some (-8)) (Some (-2)) df_pop1.

(** Lines 60-63: [df_new] of [Statistics] before its index is set. *)
Definition bar_df_new (df : DataFrame) (country_list indicator_list : list string)
  (idx : Z) : result DataFrame :=
  df_pop1 <- df_pop1_of df country_list indicator_list idx ;;
  c0 <- iloc_col0 df_pop1 ;;
  Ok (concat c0 (bar_window idx df_pop1)).

(** Line 143: [df_new] of [Statistics_line] before its index is set. *)
Definition line_df_new (df : DataFrame) (country_list indicator_list : list string)
  (idx : Z) : result DataFrame :=
  df_pop1 <- df_pop1_of df country_list indicator_list idx ;;
  c0 <- iloc_col0 df_pop1 ;;
  Ok (concat c0 (line_window df_pop1)).

(** Lines 98-104: the table of one country, indicators as row labels. *)
Definition df_temp_of (df : DataFrame) (country_list indicator_list : list string)
  (idx : Z) : result DataFrame :=
  df_sub <- df_sub_of df country_list indicator_list ;;
  cn <- getitem df_sub "Country Name" ;;
  country <- py_index country_list idx ;;
  t <- set_index "Indicator Name"
         (dropna (getitem_mask (map (eq_str country) cn) df_sub)) ;;
  drop_columns ["Country Name"; "Country Code"; "Indicator Code"] t.

(** The identifier columns of the raw table (lines 101-104); every other
    column is a year. *)
Definition metadata_labels : list string :=
  ["Country Name"; "Country Code"; "Indicator Name"; "Indicator Code"].

Definition is_year (c : column) : bool :=
  negb (existsb (fun n => has_label (Str n) c) metadata_labels).

Definition year_columns (cs : list column) : list column := filter is_year cs.

(** The cleaning of [read_data] told step by step on the rows of the
    transposed table: every raw column, its own label in front, is one
    row; the first row is the header, the four leading rows go, the header
    'Country Name' becomes 'Year', and the columns with a missing value
    are dropped. *)
Definition transposed_rows (df : DataFrame) : list (list value) :=
  map (fun c => fst c :: snd c) (columns df).

Definition frame_of_rows (header : list value) (body : list (list value)) : DataFrame :=
  {| index := range_index (length body);
     columns := map (fun jl => (snd jl, map (fun r => nth (fst jl) r NaN) body))
                    (enumerate header) |}.

(** The two last steps in the words of the description: the header
    'Country Name' is given the year label 'Year', and a column goes as
    soon as one of its cells is missing. *)
Definition year_header (l : value) : value :=
  match l with
  | Str s => if String.eqb s "Country Name" then Str "Year" else l
  | _ => l
  end.

Definition has_missing (c : column) : bool :=
  existsb (fun v => match v with NaN => true | _ => false end) (snd c).

Definition drop_missing_columns (f : DataFrame) : DataFrame :=
  {| index := index f;
     columns := filter (fun c => negb (has_missing c)) (columns f) |}.

Definition reshape_by_steps (df : DataFrame) : DataFrame :=
  let t := transposed_rows df in
  let header := hd [] t in
  let body := skipn 4 t in
  drop_missing_columns (frame_of_rows (map year_header header) body).

(** What [pd.read_csv] hands over: a rectangular table under a
    [RangeIndex]. *)
Definition raw_table (df : DataFrame) : Prop :=
  wf df /\ index df = range_index (nrows df).

(** ** Pearson correlation, [DataFrame.corr()]

    pandas computes every coefficient in one pass over the rows that hold
    a value in both columns (Welford's recurrences), fills the entry below
    the diagonal and mirrors it.  A pair with no common observation, or
    with a zero divisor, yields a missing coefficient.  The recurrences
    are written over the real numbers, without the rounding, overflow and
    underflow of the doubles pandas computes in: what is stated of the
    matrix below is its mirroring and the missing coefficient of a column
    that never moves, neither of which rests on the value of a rounded
    quotient. *)

Definition coeff : Type := option R.

Record acc : Type := mkAcc {
  nobs : nat;
  meanx : R;
  meany : R;
  ssqdmx : R;
  ssqdmy : R;
  covxy : R
}.

Definition acc0 : acc := mkAcc 0 0%R 0%R 0%R 0%R 0%R.

Definition welford (a : acc) (v : R * R) : acc :=
  let vx := fst v in
  let vy := snd v in
  let n := S (nobs a) in
  let dx := (vx - meanx a)%R in
  let dy := (vy - meany a)%R in
  let mx := (meanx a + 1 / INR n * dx)%R in
  let my := (meany a + 1 / INR n * dy)%R in
  {| nobs := n;
     meanx := mx;
     meany := my;
     ssqdmx := (ssqdmx a + (vx - mx) * dx)%R;
     ssqdmy := (ssqdmy a + (vy - my) * dy)%R;
     covxy := (covxy a + (vx - mx) * dy)%R |}.

(** The rows at which both columns hold a value. *)
Fixpoint observations (xs ys : list (option R)) : list (R * R) :=
  match xs, ys with
  | Some x :: xs', Some y :: ys' => (x, y) :: observations xs' ys'
  | _ :: xs', _ :: ys' => observations xs' ys'
  | _, _ => []
  end.

Definition clip (v : R) : R :=
  if Rlt_dec 1 v then 1%R
  else if Rlt_dec v (-1) then (-1)%R
  else v.




(** One coefficient, with [min_periods = 1]. *)
Definition corr_pair (xs ys : list (option R)) : coeff :=
  let a := fold_left welford (observations xs ys) acc0 in
  if (nobs a <? 1)%nat then None
  else
    let divisor := sqrt (ssqdmx a * ssqdmy a) in
    if Req_dec_T divisor 0 then None
    else Some (clip (covxy a / divisor)).

(** [float(s)] on a plain decimal numeral: an optional sign, digits, and
    an optional point with more digits, at least one digit in all.  Other
    spellings are taken as not convertible. *)
Definition digit_of (c : Ascii.ascii) : option Z :=
  let n := Ascii.nat_of_ascii c in
  if ((48 <=? n) && (n <=? 57))%nat then Some (Z.of_nat (n - 48)) else None.

Fixpoint read_digits (s : string) (sofar : Z) (count : nat) : Z * nat * string :=
  match s with
  | String c s' =>
      match digit_of c with
      | Some d => read_digits s' (10 * sofar + d) (S count)
      | None => (sofar, count, s)
      end
  | EmptyString => (sofar, count, s)
  end.

Definition read_sign (s : string) : bool * string :=
  match s with
  | String c s' =>
      if Ascii.eqb c (Ascii.ascii_of_nat 45) then (true, s')
      else if Ascii.eqb c (Ascii.ascii_of_nat 43) then (false, s')
      else (false, s)
  | EmptyString => (false, s)
  end.

Definition parse_float (s : string) : option Q :=
  let (negative, s1) := read_sign s in
  let '(ip, ni, s2) := read_digits s1 0 0%nat in
  let '(mant, nf, s3) :=
    match s2 with
    | String c s' => if Ascii.eqb c (Ascii.ascii_of_nat 46) then read_digits s' ip 0%nat else (ip, 0%nat, s2)
    | EmptyString => (ip, 0%nat, s2)
    end in
  match s3 with
  | EmptyString =>
      if ((ni + nf)%nat =? 0)%nat then None
      else Some (Qmake (if negative then - mant else mant) (Z.to_pos (10 ^ Z.of_nat nf)))
  | String _ _ => None
  end.

(** A cell as a float: a missing cell is masked, a string is converted
    when it is a numeral and cannot be otherwise. *)
Definition to_float (v : value) : result (option R) :=
  match v with
  | NaN => Ok None
  | Int z => Ok (Some (IZR z))
  | Num q => Ok (Some (Q2R q))
  | Str s =>
      match parse_float s with
      | Some q => Ok (Some (Q2R q))
      | None => Raise ValueError
      end
  end.

Fixpoint mapM {A B} (f : A -> result B) (l : list A) : result (list B) :=
  match l with
  | [] => Ok []
  | x :: l' => y <- f x ;; ys <- mapM f l' ;; Ok (y :: ys)
  end.

Record CorrMatrix : Type := mkCorr {
  names : list value;
  cells : list (list coeff)
}.

Definition corr_cells (mat : list (list (option R))) : list (list coeff) :=
  let K := length mat in
  map (fun xi =>
         map (fun yi => corr_pair (nth (Nat.max xi yi) mat [])
                                  (nth (Nat.min xi yi) mat []))
             (seq 0 K))
      (seq 0 K).

Definition corr (f : DataFrame) : result CorrMatrix :=
  mat <- mapM (fun c => mapM to_float (snd c)) (columns f) ;;
  Ok {| names := labels f; cells := corr_cells mat |}.



(** ** Objects, references and output

    Frames are Python objects: a variable holds a reference, an operation
    such as [f[mask]] or [f.dropna()] builds a new object, and the
    [inplace=True] calls and the assignment to [.columns] overwrite the
    object they are called on.

    Printing and plotting are recorded as output events that carry the
    frame handed over: [Describe f] stands for [print(f.describe())], the
    plot events for the bar chart, the line chart and the heatmap.  What
    the plotting libraries draw, and their own failures on data they
    cannot draw, are left out. *)

Definition ref : Type := nat.

Inductive event : Type :=
| Describe (f : DataFrame)
| BarPlot (f : DataFrame) (indicator : string) (first_label last_label : value)
| LinePlot (f : DataFrame) (title : string)
| Heatmap (m : CorrMatrix) (cmap title : string).

Record world : Type := mkWorld {
  heap : list DataFrame;
  out : list event
}.

Definition M (A : Type) : Type := world -> result A * world.

Definition ret {A} (a : A) : M A := fun w => (Ok a, w).

Definition bind {A B} (m : M A) (k : A -> M B) : M B :=
  fun w => match m w with
           | (Ok a, w') => k a w'
           | (Raise e, w') => (Raise e, w')
           end.

Definition lift {A} (r : result A) : M A := fun w => (r, w).

Definition new (f : DataFrame) : M ref :=
  fun w => (Ok (length (heap w)), {| heap := heap w ++ [f]; out := out w |}).

Definition deref (r : ref) : M DataFrame :=
  fun w => match nth_error (heap w) r with
           | Some f => (Ok f, w)
           | None => (Raise NameError, w)
           end.

Fixpoint update {A} (i : nat) (x : A) (l : list A) : list A :=
  match l, i with
  | [], _ => []
  | _ :: l', O => x :: l'
  | y :: l', S i' => y :: update i' x l'
  end.

Definition assign (r : ref) (f : DataFrame) : M unit :=
  fun w => (Ok tt, {| heap := update r f (heap w); out := out w |}).

Definition emit (e : event) : M unit :=
  fun w => (Ok tt, {| heap := heap w; out := out w ++ [e] |}).

Declare Scope prog_scope.
Delimit Scope prog_scope with prog.
Notation "x <- m ;; k" := (bind m (fun x => k))
  (at level 61, m at next level, right associativity) : prog_scope.
Notation "m ;;; k" := (bind m (fun _ => k))
  (at level 61, right associativity) : prog_scope.

(** The lists of [main], lines 177-185. *)
Definition country_list : list string :=
  ["India"; "South Africa"; "Zimbabwe"; "United States"; "United Kingdom"; "Nigeria"].

Definition indicator_list : list string :=
  ["Population growth (annual %)";
   "CO2 emissions (kt)";
   "Renewable electricity output (% of total electricity output)";
   "Agricultural land (sq. km)";
   "Urban population growth (annual %)";
   "Foreign direct investment, net inflows (% of GDP)"].

(** ** The four functions of the script *)

Open Scope prog_scope.

(** [read_data]: [csv] is the table [pd.read_csv(filename)] builds. *)
Definition read_data (csv : DataFrame) : M (ref * ref) :=
  df <- new csv ;;
  d <- deref df ;;
  df_T <- new (transpose d) ;;
  t <- deref df_T ;;
  t <- lift (reset_index t) ;;
  df_transpose <- new t ;;
  t <- deref df_transpose ;;
  header <- lift (iloc0 t) ;;
  t <- lift (set_columns header t) ;;
  assign df_transpose t ;;;
  t <- deref df_transpose ;;
  t <- lift (drop_index [Int 0; Int 1; Int 2; Int 3] t) ;;
  df_transpose <- new t ;;
  t <- deref df_transpose ;;
  renamed <- new (rename "Country Name" "Year" t) ;;
  t <- deref renamed ;;
  df_transpose <- new (reset_index_drop t) ;;
  t <- deref df_transpose ;;
  emit (Describe t) ;;;
  df_clean <- new (dropna t) ;;
  ret (df, df_clean).

Definition Statistics (df : ref) (country_list indicator_list : list string)
  (index : Z) : M unit :=
  d <- deref df ;;
  cn <- lift (getitem d "Country Name") ;;
  ind <- lift (getitem d "Indicator Name") ;;
  df_sub <- new (getitem_mask (band (map (isin1 country_list) cn)
                                    (map (isin1 indicator_list) ind)) d) ;;
  s <- deref df_sub ;;
  ind <- lift (getitem s "Indicator Name") ;;
  sel <- lift (py_index indicator_list index) ;;
  df_pop <- new (getitem_mask (map (eq_str sel) ind) s) ;;
  p <- deref df_pop ;;
  emit (Describe p) ;;;
  df_pop1 <- new (dropna p) ;;
  p1 <- deref df_pop1 ;;
  c0 <- lift (iloc_col0 p1) ;;
  df_new <- new (if index =? 1
                 then concat c0 (iloc_cols (Some (-6)) None p1)
                 else concat c0 (iloc_cols (Some (-8)) (Some (-2)) p1)) ;;
  n <- deref df_new ;;
  n <- lift (set_index "Country Name" n) ;;
  assign df_new n ;;;
  n <- deref df_new ;;
  title <- lift (py_index indicator_list index) ;;
  first_label <- lift (py_index (labels n) 0) ;;
  last_label <- lift (py_index (labels n) (-1)) ;;
  emit (BarPlot n title first_label last_label).

Definition correlations (df : ref) (country_list indicator_list : list string)
  (index : Z) (cmapstyle : string) : M unit :=
  d <- deref df ;;
  cn <- lift (getitem d "Country Name") ;;
  ind <- lift (getitem d "Indicator Name") ;;
  df_sub <- new (getitem_mask (band (map (isin1 country_list) cn)
                                    (map (isin1 indicator_list) ind)) d) ;;
  s <- deref df_sub ;;
  emit (Describe s) ;;;
  cn <- lift (getitem s "Country Name") ;;
  country <- lift (py_index country_list index) ;;
  selected <- new (getitem_mask (map (eq_str country) cn) s) ;;
  t <- deref selected ;;
  df_temp <- new (dropna t) ;;
  t <- deref df_temp ;;
  t <- lift (set_index "Indicator Name" t) ;;
  assign df_temp t ;;;
  t <- deref df_temp ;;
  t <- lift (drop_columns ["Country Name"; "Country Code"; "Indicator Code"] t) ;;
  assign df_temp t ;;;
  t <- deref df_temp ;;
  df_temp_T <- new (transpose t) ;;
  t <- deref df_temp_T ;;
  corr_matrix <- lift (corr t) ;;
  title <- lift (py_index country_list index) ;;
  emit (Heatmap corr_matrix cmapstyle title).

Definition Statistics_line (df : ref) (country_list indicator_list : list string)
  (index : Z) : M unit :=
  d <- deref df ;;
  cn <- lift (getitem d "Country Name") ;;
  ind <- lift (getitem d "Indicator Name") ;;
  df_sub <- new (getitem_mask (band (map (isin1 country_list) cn)
                                    (map (isin1 indicator_list) ind)) d) ;;
  s <- deref df_sub ;;
  ind <- lift (getitem s "Indicator Name") ;;
  sel <- lift (py_index indicator_list index) ;;
  df_pop <- new (getitem_mask (map (eq_str sel) ind) s) ;;
  p <- deref df_pop ;;
  df_pop1 <- new (dropna p) ;;
  p1 <- deref df_pop1 ;;
  c0 <- lift (iloc_col0 p1) ;;
  df_new <- new (concat c0 (iloc_cols (Some (-8)) (Some (-2)) p1)) ;;
  n <- deref df_new ;;
  n <- lift (set_index "Country Name" n) ;;
  assign df_new n ;;;
  n <- deref df_new ;;
  title <- lift (py_index indicator_list index) ;;
  emit (LinePlot n title).

(** [main], with the table of 'climate.csv' as it is read. *)
Definition main (csv : DataFrame) : M unit :=
  frames <- read_data csv ;;
  let df := fst frames in
  Statistics df country_list indicator_list 0 ;;;
  Statistics df country_list indicator_list 1 ;;;
  Statistics_line df country_list indicator_list 5 ;;;
  Statistics_line df country_list indicator_list 4 ;;;
  correlations df country_list indicator_list 0 "coolwarm" ;;;
  correlations df country_list indicator_list 3 "viridis".

Close Scope prog_scope.
Close Scope res_scope.

(** ** What the three plotting functions show, as functions of the table *)

Open Scope res_scope.

(** [Statistics]: the frame handed to the bar plot and the plot itself. *)
Definition bar_plot_of (df : DataFrame) (country_list indicator_list : list string)
  (idx : Z) : result (DataFrame * event) :=
  n <- bar_df_new df country_list indicator_list idx ;;
  n <- set_index "Country Name" n ;;
  title <- py_index indicator_list idx ;;
  first_label <- py_index (labels n) 0 ;;
  last_label <- py_index (labels n) (-1) ;;
  Ok (n, BarPlot n title first_label last_label).

(** [Statistics_line]: the frame whose rows are drawn as lines. *)
Definition line_plot_of (df : DataFrame) (country_list indicator_list : list string)
  (idx : Z) : result (DataFrame * event) :=
  n <- line_df_new df country_list indicator_list idx ;;
  n <- set_index "Country Name" n ;;
  title <- py_index indicator_list idx ;;
  Ok (n, LinePlot n title).

(** [correlations]: the table of one country and the heatmap of its
    correlation matrix. *)
Definition heatmap_of (df : DataFrame) (country_list indicator_list : list string)
  (idx : Z) (cmapstyle : string) : result (DataFrame * event) :=
  t <- df_temp_of df country_list indicator_list idx ;;
  m <- corr (transpose t) ;;
  title <- py_index country_list idx ;;
  Ok (t, Heatmap m cmapstyle title).

Close Scope res_scope.


(** A computation keeps the first [n] objects: run from a world with at
    least [n] objects it leaves them as they are, whether it returns or
    raises. *)
Definition keeps {A} (n : nat) (m : M A) : Prop :=
  forall w, (n <= length (heap w))%nat ->
            (n <= length (heap (snd (m w))))%nat
            /\ firstn n (heap (snd (m w))) = firstn n (heap w).

(** Every object of [w] is the same object in [w']. *)
Definition unchanged (w w' : world) : Prop :=
  forall r f, nth_error (heap w) r = Some f -> nth_error (heap w') r = Some f.

(** ** Sample tables *)

Definition CO2 : string := "CO2 emissions (kt)".
Definition POP : string := "Population growth (annual %)".
Definition LAND : string := "Agricultural land (sq. km)".

Definition header_of (years : list string) : list value :=
  map Str (metadata_labels ++ years).

(** Two countries, one indicator, ten year columns. *)
Definition sample_table : DataFrame :=
  frame_of_rows
    (header_of ["2000"; "2001"; "2002"; "2003"; "2004";
                "2005"; "2006"; "2007"; "2008"; "2009"])
    [ [Str "India"; Str "IND"; Str CO2; Str "EN.ATM.CO2E.KT";
       Int 10; Int 11; Int 12; Int 13; Int 14; Int 15; Int 16; Int 17; Int 18; Int 19];
      [Str "Nigeria"; Str "NGA"; Str CO2; Str "EN.ATM.CO2E.KT";
       Int 20; Int 21; Int 22; Int 23; Int 24; Int 25; Int 26; Int 27; Int 28; Int 29] ].

(** Three countries, two indicators, four years, some values missing. *)
Definition climate : DataFrame :=
  frame_of_rows
    (header_of ["2000"; "2001"; "2002"; "2003"])
    [ [Str "India"; Str "IND"; Str CO2; Str "EN.ATM.CO2E.KT";
       Int 10; NaN; Int 12; Int 13];
      [Str "India"; Str "IND"; Str POP; Str "SP.POP.GROW";
       Num (17 # 10); Num (16 # 10); Num (15 # 10); Num (12 # 10)];
      [Str "Nigeria"; Str "NGA"; Str CO2; Str "EN.ATM.CO2E.KT";
       Int 20; Int 21; Int 22; NaN];
      [Str "Kenya"; Str "KEN"; Str CO2; Str "EN.ATM.CO2E.KT";
       NaN; Int 31; Int 32; Int 33] ].

(** One country, one indicator, two years. *)
Definition two_years : DataFrame :=
  frame_of_rows
    (header_of ["2000"; "2001"])
    [ [Str "India"; Str "IND"; Str CO2; Str "EN.ATM.CO2E.KT"; Int 10; Int 11] ].

(** One country, two indicators, three years; the land area never moves. *)
Definition steady : DataFrame :=
  frame_of_rows
    (header_of ["2000"; "2001"; "2002"])
    [ [Str "India"; Str "IND"; Str LAND; Str "AG.LND.AGRI.K2";
       Int 1800; Int 1800; Int 1800];
      [Str "India"; Str "IND"; Str CO2; Str "EN.ATM.CO2E.KT";
       Int 10; Int 12; Int 11] ].

(** A table that has nothing but its two key columns. *)
Definition ids_only : DataFrame :=
  frame_of_rows
    [Str "Country Name"; Str "Indicator Name"]
    [ [Str "India"; Str CO2] ].

(** A world that holds one table, and the reference to it. *)
Definition world_of (df : DataFrame) : world := {| heap := [df]; out := [] |}.

(** The cleaned subsets of the sample tables, evaluated. *)
Definition frame_or_empty (r : result DataFrame) : DataFrame :=
  match r with Ok f => f | Raise _ => mkFrame [] [] end.

Definition sample_pop1 : DataFrame :=
  Eval vm_compute in
    frame_or_empty (df_pop1_of sample_table country_list indicator_list 1).

Definition climate_pop1 : DataFrame :=
  Eval vm_compute in
    frame_or_empty (df_pop1_of climate country_list indicator_list 1).

Definition two_years_pop1 : DataFrame :=
  Eval vm_compute in
    frame_or_empty (df_pop1_of two_years country_list indicator_list 1).

(** A table that lost its Country Name column. *)
Definition no_country : DataFrame :=
  frame_of_rows
    [Str "Indicator Name"; Str "2000"]
    [ [Str CO2; Int 10] ].

(** A table without a single column. *)
Definition no_columns : DataFrame := mkFrame [] [].



Open Scope list_scope.

(** * Lists *)

Section ListFacts.
Context {A B : Type}.

Lemma filter_idem (p : A -> bool) (l : list A) :
  filter p (filter p l) = filter p l.
Proof.
  induction l as [|x l IH]; simpl; auto.
  destruct (p x) eqn:E; simpl; rewrite ?E, IH; reflexivity.
Qed.

Lemma forallb_mapped (p : B -> bool) (g : A -> B) (l : list A) :
  forallb p (map g l) = forallb (fun x => p (g x)) l.
Proof.
  induction l as [|x l IH]; simpl; congruence.
Qed.

Lemma map_nth_seq (l : list A) (d : A) :
  map (fun i => nth i l d) (seq 0 (length l)) = l.
Proof.
  induction l as [|x l IH]; simpl; auto.
  f_equal. rewrite <- seq_shift, map_map. exact IH.
Qed.

Lemma nth_mapped (g : A -> B) (l : list A) (j : nat) (x : A) (d : B) :
  nth_error l j = Some x -> nth j (map g l) d = g x.
Proof.
  revert j; induction l as [|y l IH]; intros [|j]; simpl; try discriminate.
  - intros [= ->]; reflexivity.
  - apply IH.
Qed.

(** Filtering by position and filtering by element agree when the two
    tests do. *)
Lemma filter_by_position (p : A -> bool) (q : nat -> bool) (l : list A) (k : nat) :
  (forall j x, nth_error l j = Some x -> q (k + j)%nat = p x) ->
  map snd (filter (fun jx => q (fst jx)) (combine (seq k (length l)) l)) = filter p l.
Proof.
  revert k; induction l as [|x l IH]; intros k H; simpl; auto.
  rewrite <- (H 0%nat x eq_refl), Nat.add_0_r.
  assert (IH' : map snd (filter (fun jx => q (fst jx)) (combine (seq (S k) (length l)) l))
                = filter p l).
  { apply IH. intros j y Hy. rewrite <- (H (S j) y Hy). f_equal. lia. }
  destruct (q k); simpl; rewrite IH'; reflexivity.
Qed.

Lemma select_nil (m : list bool) : select m (@nil A) = [].
Proof. destruct m as [|[] m]; reflexivity. Qed.

Lemma select_mapped (g : A -> B) (m : list bool) (l : list A) :
  select m (map g l) = map g (select m l).
Proof.
  revert l; induction m as [|b m IH]; intros [|x l]; simpl; auto.
  destruct b; simpl; rewrite IH; reflexivity.
Qed.

Lemma select_all_false (m : list bool) (l : list A) :
  forallb negb m = true -> select m l = [].
Proof.
  revert l; induction m as [|b m IH]; intros [|x l]; simpl; auto.
  destruct b; simpl; try discriminate. apply IH.
Qed.

(** A mask computed from the elements keeps those that pass the test. *)
Lemma select_by_test (p : A -> bool) (l : list A) :
  select (map p l) l = filter p l.
Proof.
  induction l as [|x l IH]; simpl; auto.
  destruct (p x); rewrite IH; reflexivity.
Qed.
End ListFacts.

(** * Missing values *)

Lemma count_na_complete (c : column) :
  count_na c = 0%nat <-> complete c = true.
Proof.
  unfold count_na, complete. destruct c as [l vs]; simpl.
  induction vs as [|v vs IH]; simpl.
  - tauto.
  - destruct v; simpl; try exact IH. split; discriminate.
Qed.

Lemma dropna_idem (f : DataFrame) : dropna (dropna f) = dropna f.
Proof.
  unfold dropna; simpl. rewrite filter_idem. reflexivity.
Qed.

Lemma dropna_complete (f : DataFrame) (c : column) :
  In c (columns (dropna f)) <-> In c (columns f) /\ complete c = true.
Proof. unfold dropna; simpl. apply filter_In. Qed.

Lemma forallb_pointwise {A} (p q : A -> bool) (l : list A) :
  (forall x, p x = q x) -> forallb p l = forallb q l.
Proof.
  intros H; induction l as [|x l IH]; simpl; congruence.
Qed.

(** On a rectangular frame a column is complete exactly when every row
    reports its position. *)
Lemma reported_complete (f : DataFrame) (j : nat) (c : column) :
  wf f -> nth_error (columns f) j = Some c ->
  reported_by_all f j = complete c.
Proof.
  intros Hwf Hj.
  assert (Hlen : length (snd c) = nrows f).
  { unfold wf in Hwf. rewrite Forall_forall in Hwf.
    apply Hwf. eapply nth_error_In; eauto. }
  unfold reported_by_all, rows, complete, reports.
  rewrite forallb_mapped.
  transitivity (forallb notna (map (fun i => nth i (snd c) NaN) (seq 0 (length (snd c))))).
  - rewrite forallb_mapped, Hlen.
    apply forallb_pointwise; intros i.
    unfold iloc_row. rewrite (nth_mapped _ _ _ _ _ Hj). reflexivity.
  - rewrite map_nth_seq. reflexivity.
Qed.

Lemma dropna_reported (f : DataFrame) :
  wf f ->
  columns (dropna f)
  = map snd (filter (fun jc => reported_by_all f (fst jc)) (enumerate (columns f))).
Proof.
  intros Hwf. unfold dropna, enumerate; simpl.
  symmetry. apply (filter_by_position complete (reported_by_all f) (columns f) 0).
  intros j c Hj. simpl. apply reported_complete; assumption.
Qed.

(** * Rows of a frame *)

Lemma rows_rec_nth (n : nat) (cols : list (list value)) :
  map (fun i => map (fun vs => nth i vs NaN) cols) (seq 0 n) = rows_rec n cols.
Proof.
  revert cols; induction n as [|n IH]; intros cols; simpl; auto.
  f_equal.
  - apply map_ext. intros [|v vs]; reflexivity.
  - rewrite <- seq_shift, map_map, <- IH.
    apply map_ext; intros i. rewrite map_map.
    apply map_ext. intros [|v vs]; simpl; auto. destruct i; reflexivity.
Qed.

Lemma rows_as_rec (f : DataFrame) :
  rows f = rows_rec (nrows f) (map snd (columns f)).
Proof.
  unfold rows, iloc_row. rewrite <- rows_rec_nth.
  apply map_ext; intros i. rewrite map_map. reflexivity.
Qed.

Lemma select_length {A B} (m : list bool) (l : list A) (l' : list B) :
  length l = length l' -> length (select m l) = length (select m l').
Proof.
  revert l l'; induction m as [|b m IH]; intros [|x l] [|y l']; simpl;
    try discriminate; auto.
  intros [= E]. destruct b; simpl; auto.
Qed.

Lemma rows_rec_select (m : list bool) (idx : list value) (cols : list (list value)) :
  Forall (fun vs => length vs = length idx) cols ->
  select m (rows_rec (length idx) cols)
  = rows_rec (length (select m idx)) (map (select m) cols).
Proof.
  revert idx cols; induction m as [|b m IH]; intros idx cols Hc.
  - destruct idx; reflexivity.
  - destruct idx as [|i idx]; [reflexivity|].
    assert (Htl : Forall (fun vs => length vs = length idx) (map (@tl value) cols)).
    { rewrite Forall_forall in *. intros vs Hvs. apply in_map_iff in Hvs as (ws & <- & Hws).
      specialize (Hc ws Hws). destruct ws; simpl in *; [discriminate|lia]. }
    assert (Hsel : map (select m) (map (@tl value) cols)
                   = map (fun vs => select m (tl vs)) cols) by apply map_map.
    simpl. destruct b; simpl.
    + rewrite (IH idx _ Htl), Hsel. f_equal.
      * rewrite map_map. apply map_ext_in. intros vs Hvs.
        rewrite Forall_forall in Hc. specialize (Hc vs Hvs).
        destruct vs; simpl in *; [discriminate|reflexivity].
      * f_equal. rewrite map_map. apply map_ext_in. intros vs Hvs.
        rewrite Forall_forall in Hc. specialize (Hc vs Hvs).
        destruct vs; simpl in *; [discriminate|reflexivity].
    + rewrite (IH idx _ Htl), Hsel. f_equal.
      apply map_ext_in. intros vs Hvs.
      rewrite Forall_forall in Hc. specialize (Hc vs Hvs).
      destruct vs; simpl in *; [discriminate|reflexivity].
Qed.

Lemma wf_columns (f : DataFrame) :
  wf f -> Forall (fun vs => length vs = length (index f)) (map snd (columns f)).
Proof.
  unfold wf, nrows. rewrite !Forall_forall. intros H vs Hvs.
  apply in_map_iff in Hvs as (c & <- & Hc). auto.
Qed.

Lemma getitem_mask_wf (m : list bool) (f : DataFrame) :
  wf f -> wf (getitem_mask m f).
Proof.
  unfold wf, nrows, getitem_mask; simpl. rewrite !Forall_forall.
  intros H c Hc. apply in_map_iff in Hc as (c' & <- & Hc'); simpl.
  apply select_length. auto.
Qed.

Lemma getitem_mask_rows (m : list bool) (f : DataFrame) :
  wf f -> rows (getitem_mask m f) = select m (rows f).
Proof.
  intros Hwf. rewrite !rows_as_rec. unfold nrows.
  rewrite (rows_rec_select m (index f) _ (wf_columns f Hwf)).
  unfold getitem_mask; simpl. f_equal.
  rewrite !map_map. reflexivity.
Qed.

Lemma select_combine {A B} (m : list bool) (a : list A) (b : list B) :
  select m (combine a b) = combine (select m a) (select m b).
Proof.
  revert a b; induction m as [|x m IH]; intros [|u a] [|v b]; simpl; auto.
  - destruct x; [|destruct (select m a)]; reflexivity.
  - destruct x; simpl; rewrite IH; reflexivity.
Qed.

Lemma getitem_mask_records (m : list bool) (f : DataFrame) :
  wf f -> records (getitem_mask m f) = select m (records f).
Proof.
  intros Hwf. unfold records. rewrite getitem_mask_rows by assumption.
  rewrite select_combine. reflexivity.
Qed.

Lemma getitem_mask_labels (m : list bool) (f : DataFrame) :
  labels (getitem_mask m f) = labels f.
Proof. unfold labels, getitem_mask; simpl. rewrite map_map. reflexivity. Qed.

(** * Column lookup *)

Lemma lookup_position (name : value) (cs : list column) (vs : list value) :
  lookup_col name cs = Ok vs ->
  exists j c, position name cs = Some j /\ nth_error cs j = Some c /\ snd c = vs.
Proof.
  induction cs as [|c cs IH]; simpl; [discriminate|].
  destruct (label_eqb (fst c) name).
  - intros [= <-]. exists 0%nat, c. auto.
  - intros H. destruct (IH H) as (j & c' & Hp & Hn & Hs).
    exists (S j), c'. rewrite Hp. auto.
Qed.

Lemma position_lookup (name : value) (cs : list column) (j : nat) :
  position name cs = Some j ->
  exists c, nth_error cs j = Some c /\ lookup_col name cs = Ok (snd c)
            /\ label_eqb (fst c) name = true.
Proof.
  revert j; induction cs as [|c cs IH]; simpl; [discriminate|]; intros j.
  destruct (label_eqb (fst c) name) eqn:E.
  - intros [= <-]. exists c. auto.
  - destruct (position name cs) as [k|]; simpl; [|discriminate].
    intros [= <-]. destruct (IH k eq_refl) as (c' & H1 & H2 & H3).
    exists c'. auto.
Qed.

Lemma lookup_mapped (name : value) (g : list value -> list value) (cs : list column) :
  lookup_col name (map (fun c => (fst c, g (snd c))) cs)
  = rmap g (lookup_col name cs).
Proof.
  induction cs as [|c cs IH]; simpl; auto.
  destruct (label_eqb (fst c) name); simpl; auto.
Qed.

(** On a rectangular frame a column is the list of its cells along the rows. *)
Lemma column_along_rows (f : DataFrame) (j : nat) (c : column) :
  wf f -> nth_error (columns f) j = Some c ->
  map (fun r => nth j r NaN) (rows f) = snd c.
Proof.
  intros Hwf Hj.
  assert (Hlen : length (snd c) = nrows f).
  { unfold wf in Hwf. rewrite Forall_forall in Hwf.
    apply Hwf. eapply nth_error_In; eauto. }
  unfold rows. rewrite map_map, <- Hlen.
  rewrite <- (map_nth_seq (snd c) NaN) at 2.
  apply map_ext; intros i. unfold iloc_row.
  exact (nth_mapped (fun c0 : column => nth i (snd c0) NaN) _ _ _ NaN Hj).
Qed.

(** * The filter of lines 50-52 *)

Lemma band_mapped {A} (p q : A -> bool) (l : list A) :
  band (map p l) (map q l) = map (fun x => p x && q x) l.
Proof. induction l as [|x l IH]; simpl; congruence. Qed.

Lemma select_twice {A B} (q1 q2 : A -> bool) (R : list A) (l : list B) :
  select (map q2 (filter q1 R)) (select (map q1 R) l)
  = select (map (fun r => q1 r && q2 r) R) l.
Proof.
  revert l; induction R as [|r R IH]; intros l; simpl.
  - reflexivity.
  - destruct l as [|x l].
    + simpl. rewrite select_nil. reflexivity.
    + simpl. destruct (q1 r); simpl.
      * destruct (q2 r); rewrite IH; reflexivity.
      * apply IH.
Qed.

Lemma select_records {A B} (p : B -> bool) (a : list A) (b : list B) :
  select (map p b) (combine a b) = filter (fun ab => p (snd ab)) (combine a b).
Proof.
  revert a; induction b as [|y b IH]; intros [|x a]; simpl; auto.
  destruct (p y); rewrite IH; reflexivity.
Qed.

Lemma py_index_In {A} (l : list A) (i : Z) (a : A) :
  py_index l i = Ok a -> In a l.
Proof.
  unfold py_index.
  destruct (_ && _); [|discriminate].
  destruct (nth_error l _) eqn:E; [|discriminate].
  intros [= <-]. eapply nth_error_In; eauto.
Qed.

Lemma py_index_range {A} (l : list A) (i : Z) :
  (exists a, py_index l i = Ok a) <-> - Z.of_nat (length l) <= i < Z.of_nat (length l).
Proof.
  unfold py_index. split.
  - intros [a H]. destruct (i <? 0) eqn:Ei;
      destruct (_ && _) eqn:E; try discriminate;
      apply andb_prop in E as [E1 E2]; lia.
  - intros H.
    set (j := if i <? 0 then i + Z.of_nat (length l) else i).
    assert (Hj : 0 <= j < Z.of_nat (length l)) by (unfold j; destruct (i <? 0) eqn:Ei; lia).
    replace ((0 <=? j) && (j <? Z.of_nat (length l))) with true
      by (symmetry; apply andb_true_intro; split; lia).
    destruct (nth_error l (Z.to_nat j)) eqn:E; eauto.
    apply nth_error_None in E. lia.
Qed.

Lemma eq_str_isin (il : list string) (sel : string) (v : value) :
  In sel il -> eq_str sel v = true -> isin1 il v = true.
Proof.
  intros Hin H. unfold isin1. apply existsb_exists. eauto.
Qed.

Lemma getitem_getitem_mask (m : list bool) (f : DataFrame) (name : string) :
  getitem (getitem_mask m f) name = rmap (select m) (getitem f name).
Proof. unfold getitem, getitem_mask; simpl. apply lookup_mapped. Qed.

(** The subset of lines 50-51 is the raw table under one mask over its rows. *)
Lemma df_sub_of_rows (df : DataFrame) (cl il : list string) (s : DataFrame) :
  wf df -> df_sub_of df cl il = Ok s ->
  exists jc ji,
    position (Str "Country Name") (columns df) = Some jc
    /\ position (Str "Indicator Name") (columns df) = Some ji
    /\ s = getitem_mask
             (map (fun r => isin1 cl (nth jc r NaN) && isin1 il (nth ji r NaN)) (rows df))
             df.
Proof.
  intros Hwf. unfold df_sub_of, getitem.
  destruct (lookup_col (Str "Country Name") (columns df)) as [cn|] eqn:Ec; [|discriminate].
  destruct (lookup_col (Str "Indicator Name") (columns df)) as [ind|] eqn:Ei; [|discriminate].
  simpl. intros [= <-].
  apply lookup_position in Ec as (jc & c & Hpc & Hnc & <-).
  apply lookup_position in Ei as (ji & c' & Hpi & Hni & <-).
  exists jc, ji. repeat split; auto.
  rewrite <- (column_along_rows df jc c Hwf Hnc).
  rewrite <- (column_along_rows df ji c' Hwf Hni).
  rewrite !map_map, band_mapped. reflexivity.
Qed.

(** The rows of one indicator, lines 50-52: one mask over the raw rows. *)
Lemma df_pop_of_rows (df : DataFrame) (cl il : list string) (idx : Z) (p : DataFrame) :
  wf df -> df_pop_of df cl il idx = Ok p ->
  exists jc ji sel,
    position (Str "Country Name") (columns df) = Some jc
    /\ position (Str "Indicator Name") (columns df) = Some ji
    /\ py_index il idx = Ok sel
    /\ p = getitem_mask (map (row_selected cl sel jc ji) (rows df)) df.
Proof.
  intros Hwf. unfold df_pop_of.
  destruct (df_sub_of df cl il) as [s|] eqn:Es; [|discriminate]. simpl.
  destruct (df_sub_of_rows df cl il s Hwf Es) as (jc & ji & Hpc & Hpi & ->).
  rewrite getitem_getitem_mask. unfold getitem.
  destruct (position_lookup _ _ _ Hpi) as (c' & Hni & Hl & _).
  rewrite Hl. simpl.
  destruct (py_index il idx) as [sel|] eqn:Esel; [|discriminate]. simpl.
  intros [= <-]. exists jc, ji, sel. repeat split; auto.
  rewrite <- (column_along_rows df ji c' Hwf Hni).
  set (q1 := fun r : list value => isin1 cl (nth jc r NaN) && isin1 il (nth ji r NaN)).
  set (q2 := fun r : list value => eq_str sel (nth ji r NaN)).
  assert (Hm : map (eq_str sel) (select (map q1 (rows df)) (map (fun r => nth ji r NaN) (rows df)))
               = map q2 (filter q1 (rows df))).
  { rewrite select_mapped, select_by_test, map_map. reflexivity. }
  rewrite Hm. unfold getitem_mask; simpl.
  assert (Hq : map (row_selected cl sel jc ji) (rows df)
               = map (fun r => q1 r && q2 r) (rows df)).
  { apply map_ext; intros r. unfold row_selected, q1, q2.
    destruct (eq_str sel (nth ji r NaN)) eqn:E.
    - rewrite (eq_str_isin il sel _ (py_index_In _ _ _ Esel) E).
      rewrite !andb_true_r. reflexivity.
    - rewrite !andb_false_r. reflexivity. }
  rewrite Hq, select_twice. f_equal.
  rewrite map_map. apply map_ext; intros c; simpl.
  rewrite select_twice. reflexivity.
Qed.

(** The filter succeeds as soon as its two columns exist and the index
    names an indicator. *)
Lemma df_pop_of_defined (df : DataFrame) (cl il : list string) (idx : Z)
  (cn ind : list value) (sel : string) :
  getitem df "Country Name" = Ok cn ->
  getitem df "Indicator Name" = Ok ind ->
  py_index il idx = Ok sel ->
  df_sub_of df cl il
  = Ok (getitem_mask (band (map (isin1 cl) cn) (map (isin1 il) ind)) df)
  /\ df_pop_of df cl il idx
     = Ok (getitem_mask
             (map (eq_str sel) (select (band (map (isin1 cl) cn) (map (isin1 il) ind)) ind))
             (getitem_mask (band (map (isin1 cl) cn) (map (isin1 il) ind)) df)).
Proof.
  intros Hc Hi Hs. unfold df_pop_of, df_sub_of. rewrite Hc, Hi. simpl.
  rewrite getitem_getitem_mask, Hi. simpl. rewrite Hs. simpl. auto.
Qed.

Lemma absent_not_isin (cl : list string) (cn : list value) :
  (forall c, In c cl -> ~ In (Str c) cn) ->
  forallb negb (map (isin1 cl) cn) = true.
Proof.
  intros H. rewrite forallb_mapped. apply forallb_forall. intros v Hv.
  destruct (isin1 cl v) eqn:E; auto.
  unfold isin1 in E. apply existsb_exists in E as (s & Hs & He).
  destruct v; simpl in He; try discriminate.
  apply String.eqb_eq in He; subst. exfalso. eapply H; eauto.
Qed.

Lemma band_false_l (a b : list bool) :
  forallb negb a = true -> forallb negb (band a b) = true.
Proof.
  revert b; induction a as [|x a IH]; intros [|y b]; simpl; auto.
  intros H. apply andb_prop in H as [Hx Ha]. destruct x; [discriminate|].
  simpl. auto.
Qed.

(** * Slices *)

Lemma clamp_neg (n b : Z) : b < 0 -> clamp n b = Z.max 0 (b + n).
Proof. intros H. unfold clamp. destruct (Z.ltb_spec b 0); lia. Qed.

Lemma py_slice_last6 {A} (l : list A) :
  py_slice (Some (-6)) None l = skipn (length l - 6) l.
Proof.
  unfold py_slice. rewrite clamp_neg by lia.
  replace (Z.to_nat (Z.max 0 (-6 + Z.of_nat (length l)))) with (length l - 6)%nat by lia.
  apply firstn_all2. rewrite length_skipn. lia.
Qed.

Lemma py_slice_8_2 {A} (l : list A) :
  py_slice (Some (-8)) (Some (-2)) l
  = firstn (length l - 2 - (length l - 8)) (skipn (length l - 8) l).
Proof.
  unfold py_slice. rewrite !clamp_neg by lia.
  f_equal; [|f_equal]; lia.
Qed.

(** With eight columns or more the slice [-8:-2] is six columns long and
    leaves two columns behind it. *)
Lemma py_slice_8_2_long {A} (l : list A) :
  (8 <= length l)%nat ->
  exists c1 c2,
    l = (firstn (length l - 8) l ++ py_slice (Some (-8)) (Some (-2)) l ++ [c1; c2])%list
    /\ length (py_slice (Some (-8)) (Some (-2)) l) = 6%nat.
Proof.
  intros H. rewrite py_slice_8_2.
  replace (length l - 2 - (length l - 8))%nat with 6%nat by lia.
  set (rest := skipn (length l - 8) l).
  assert (Hr : length rest = 8%nat) by (unfold rest; rewrite length_skipn; lia).
  assert (Hl : l = (firstn (length l - 8) l ++ rest)%list)
    by (unfold rest; symmetry; apply firstn_skipn).
  destruct rest as [|x1 [|x2 [|x3 [|x4 [|x5 [|x6 [|x7 [|x8 [|x9 r]]]]]]]]];
    simpl in Hr; try discriminate.
  exists x7, x8. split; [exact Hl|reflexivity].
Qed.

Lemma py_slice_last6_long {A} (l : list A) :
  (6 <= length l)%nat ->
  l = (firstn (length l - 6) l ++ py_slice (Some (-6)) None l)%list
  /\ length (py_slice (Some (-6)) None l) = 6%nat.
Proof.
  intros H. rewrite py_slice_last6. split.
  - symmetry. apply firstn_skipn.
  - rewrite length_skipn. lia.
Qed.

(** With fewer than eight columns the slice [-8:-2] starts at the first
    column. *)
Lemma py_slice_8_2_short {A} (l : list A) :
  (length l < 8)%nat ->
  py_slice (Some (-8)) (Some (-2)) l = firstn (length l - 2) l.
Proof.
  intros H. rewrite py_slice_8_2.
  replace (length l - 8)%nat with 0%nat by lia.
  rewrite Nat.sub_0_r. reflexivity.
Qed.

Lemma Forall_skipn_more {A} (P : A -> Prop) (k n : nat) (l : list A) :
  (k <= n)%nat -> Forall P (skipn k l) -> Forall P (skipn n l).
Proof.
  intros Hkn H.
  replace n with ((n - k) + k)%nat by lia.
  rewrite <- skipn_skipn.
  rewrite Forall_forall in *. intros x Hx. apply H.
  rewrite <- (firstn_skipn (n - k) (skipn k l)). apply in_or_app. auto.
Qed.

Lemma Forall_firstn {A} (P : A -> Prop) (n : nat) (l : list A) :
  Forall P l -> Forall P (firstn n l).
Proof.
  rewrite !Forall_forall. intros H x Hx. apply H.
  rewrite <- (firstn_skipn n l). apply in_or_app. auto.
Qed.

(** * The identifier columns survive the cleaning *)

Lemma isin1_notna (l : list string) (v : value) : isin1 l v = true -> notna v = true.
Proof.
  unfold isin1. intros H. apply existsb_exists in H as (s & _ & H).
  destruct v; simpl in *; auto; discriminate.
Qed.

Lemma forallb_select {A} (P : A -> bool) (m : list bool) (l : list A) :
  forallb P l = true -> forallb P (select m l) = true.
Proof.
  revert l; induction m as [|b m IH]; intros [|x l]; simpl; auto.
  intros H. apply andb_prop in H as [Hx Hl].
  destruct b; simpl; rewrite ?Hx; simpl; auto.
Qed.

Lemma forallb_select_band_l {A} (P P' : A -> bool) (b : list bool) (l : list A) :
  (forall x, P' x = true -> P x = true) ->
  forallb P (select (band (map P' l) b) l) = true.
Proof.
  intros HP. revert b; induction l as [|x l IH]; intros [|y b]; simpl; auto.
  destruct (P' x) eqn:E; simpl; auto.
  destruct y; simpl; auto. rewrite (HP x E). simpl. auto.
Qed.

Lemma forallb_select_band_r {A} (P P' : A -> bool) (a : list bool) (l : list A) :
  (forall x, P' x = true -> P x = true) ->
  forallb P (select (band a (map P' l)) l) = true.
Proof.
  intros HP. revert a; induction l as [|x l IH]; intros [|y a]; simpl; auto.
  destruct y; simpl; auto.
  destruct (P' x) eqn:E; simpl; auto. rewrite (HP x E). simpl. auto.
Qed.

Lemma lookup_In (name : value) (cs : list column) (vs : list value) :
  lookup_col name cs = Ok vs ->
  exists c, In c cs /\ has_label name c = true /\ snd c = vs.
Proof.
  induction cs as [|c cs IH]; simpl; [discriminate|].
  destruct (label_eqb (fst c) name) eqn:E.
  - intros [= <-]. exists c. auto.
  - intros H. destruct (IH H) as (c' & H1 & H2 & H3). exists c'. auto.
Qed.

Lemma df_pop_of_inv (df : DataFrame) (cl il : list string) (idx : Z) (p : DataFrame) :
  df_pop_of df cl il idx = Ok p ->
  exists cn ind sel,
    getitem df "Country Name" = Ok cn
    /\ getitem df "Indicator Name" = Ok ind
    /\ py_index il idx = Ok sel.
Proof.
  unfold df_pop_of, df_sub_of.
  destruct (getitem df "Country Name") as [cn|]; [|discriminate].
  destruct (getitem df "Indicator Name") as [ind|] eqn:Ei; [|discriminate].
  simpl. rewrite getitem_getitem_mask, Ei. simpl.
  destruct (py_index il idx) as [sel|]; [|discriminate].
  eauto 10.
Qed.

(** The cleaned subset still has its Country Name and Indicator Name
    columns. *)
Lemma df_pop1_of_ids (df : DataFrame) (cl il : list string) (idx : Z) (p1 : DataFrame) :
  df_pop1_of df cl il idx = Ok p1 ->
  (exists c, In c (columns p1) /\ has_label (Str "Country Name") c = true)
  /\ (exists c, In c (columns p1) /\ has_label (Str "Indicator Name") c = true).
Proof.
  unfold df_pop1_of. intros H.
  destruct (df_pop_of df cl il idx) as [p|] eqn:Ep; [|discriminate].
  simpl in H. injection H as <-.
  destruct (df_pop_of_inv _ _ _ _ _ Ep) as (cn & ind & sel & Hc & Hi & Hs).
  destruct (df_pop_of_defined df cl il idx cn ind sel Hc Hi Hs) as [_ Hp].
  rewrite Hp in Ep. injection Ep as <-.
  set (m1 := band (map (isin1 cl) cn) (map (isin1 il) ind)).
  set (m2 := map (eq_str sel) (select m1 ind)).
  split.
  - apply lookup_In in Hc as (c & Hin & Hl & Hv).
    exists (fst c, select m2 (select m1 (snd c))). split; [|exact Hl].
    apply dropna_complete. split.
    + simpl. apply in_map_iff. exists (fst c, select m1 (snd c)). split; auto.
      apply in_map_iff. exists c. auto.
    + unfold complete; simpl. apply forallb_select. rewrite Hv.
      apply forallb_select_band_l. apply isin1_notna.
  - apply lookup_In in Hi as (c & Hin & Hl & Hv).
    exists (fst c, select m2 (select m1 (snd c))). split; [|exact Hl].
    apply dropna_complete. split.
    + simpl. apply in_map_iff. exists (fst c, select m1 (snd c)). split; auto.
      apply in_map_iff. exists c. auto.
    + unfold complete; simpl. apply forallb_select. rewrite Hv.
      apply forallb_select_band_r. apply isin1_notna.
Qed.

Lemma filter_nonempty {A} (p : A -> bool) (l : list A) (x : A) :
  In x l -> p x = true -> (1 <= length (filter p l))%nat.
Proof.
  intros Hin Hp. assert (H : In x (filter p l)) by (apply filter_In; auto).
  destruct (filter p l); [destruct H | simpl; lia].
Qed.

(** Two identifier columns leave room for [n - 2] years at most. *)
Lemma year_columns_bound (cs : list column) :
  (length (filter (has_label (Str "Country Name")) cs)
   + length (filter (has_label (Str "Indicator Name")) cs)
   + length (year_columns cs) <= length cs)%nat.
Proof.
  unfold year_columns.
  induction cs as [|c cs IH]; simpl; [lia|].
  unfold is_year at 1, metadata_labels at 1. simpl.
  destruct (has_label (Str "Country Name") c) eqn:E1;
    destruct (has_label (Str "Indicator Name") c) eqn:E2; simpl.
  - unfold has_label in *. destruct (fst c); simpl in *; try discriminate.
    apply String.eqb_eq in E1, E2. subst. discriminate.
  - lia.
  - rewrite orb_true_r. simpl. lia.
  - destruct (negb _); simpl; lia.
Qed.

Lemma year_columns_sub (cs : list column) (a b : option Z) :
  (length (year_columns (py_slice a b cs)) <= length (year_columns cs))%nat.
Proof.
  unfold py_slice, year_columns.
  set (i := Z.to_nat _). set (k := Z.to_nat _).
  rewrite <- (firstn_skipn k cs) at 2. rewrite filter_app, length_app.
  rewrite <- (firstn_skipn i (skipn k cs)) at 2. rewrite filter_app, length_app.
  lia.
Qed.

Lemma df_pop1_of_years (df : DataFrame) (cl il : list string) (idx : Z) (p1 : DataFrame) :
  df_pop1_of df cl il idx = Ok p1 ->
  (2 + length (year_columns (columns p1)) <= ncols p1)%nat.
Proof.
  intros H. destruct (df_pop1_of_ids _ _ _ _ _ H) as [(c1 & Hin1 & Hl1) (c2 & Hin2 & Hl2)].
  pose proof (filter_nonempty _ _ _ Hin1 Hl1).
  pose proof (filter_nonempty _ _ _ Hin2 Hl2).
  pose proof (year_columns_bound (columns p1)).
  unfold ncols. lia.
Qed.

(** * Running the programs *)

Section Run.
Context {A B : Type}.

Lemma bind_lift (r : result A) (k : A -> M B) (w : world) :
  bind (lift r) k w = match r with Ok a => k a w | Raise e => (Raise e, w) end.
Proof. unfold bind, lift. destruct r; reflexivity. Qed.

Lemma bind_new (f : DataFrame) (k : ref -> M B) (w : world) :
  bind (new f) k w
  = k (length (heap w)) {| heap := heap w ++ [f]; out := out w |}.
Proof. reflexivity. Qed.

Lemma bind_deref (r : ref) (d : DataFrame) (k : DataFrame -> M B) (w : world) :
  nth_error (heap w) r = Some d -> bind (deref r) k w = k d w.
Proof. intros H. unfold bind, deref. rewrite H. reflexivity. Qed.

Lemma bind_assign (r : ref) (f : DataFrame) (k : unit -> M B) (w : world) :
  bind (assign r f) k w = k tt {| heap := update r f (heap w); out := out w |}.
Proof. reflexivity. Qed.

Lemma bind_emit (e : event) (k : unit -> M B) (w : world) :
  bind (emit e) k w = k tt {| heap := heap w; out := out w ++ [e] |}.
Proof. reflexivity. Qed.
End Run.

Lemma nth_error_snoc {A} (l : list A) (x : A) :
  nth_error (l ++ [x]) (length l) = Some x.
Proof.
  rewrite nth_error_app2 by lia. rewrite Nat.sub_diag. reflexivity.
Qed.

Lemma update_snoc {A} (l : list A) (x y : A) :
  update (length l) y (l ++ [x]) = l ++ [y].
Proof. induction l as [|z l IH]; simpl; congruence. Qed.

Lemma update_length {A} (i : nat) (x : A) (l : list A) :
  length (update i x l) = length l.
Proof.
  revert i; induction l as [|y l IH]; intros [|i]; simpl; auto.
Qed.

(** Symbolic execution of a program from a world whose objects are known. *)
Ltac run_step :=
  first
    [ rewrite bind_new; cbn [heap out]
    | rewrite bind_assign; cbn [heap out]; rewrite ?update_snoc
    | rewrite bind_emit; cbn [heap out]
    | rewrite bind_lift
    | erewrite bind_deref by (cbn [heap]; first [eassumption | apply nth_error_snoc]) ].

Lemma snoc4 {A} (l : list A) (a b c d : A) :
  (((l ++ [a]) ++ [b]) ++ [c]) ++ [d] = l ++ [a; b; c; d].
Proof. rewrite <- !app_assoc. reflexivity. Qed.

Lemma snoc2 {A} (l : list A) (a b : A) :
  (l ++ [a]) ++ [b] = l ++ [a; b].
Proof. rewrite <- !app_assoc. reflexivity. Qed.

(** [Statistics] from a world in which [r] is the raw table [d]: the call
    raises what the stages raise, and otherwise appends its four new
    frames and its two outputs. *)
Lemma Statistics_run (w : world) (r : ref) (d : DataFrame) (cl il : list string) (idx : Z) :
  nth_error (heap w) r = Some d ->
  match bar_plot_of d cl il idx with
  | Ok (g, ev) =>
      exists s p,
        df_sub_of d cl il = Ok s /\ df_pop_of d cl il idx = Ok p
        /\ Statistics r cl il idx w
           = (Ok tt, {| heap := heap w ++ [s; p; dropna p; g];
                        out := out w ++ [Describe p; ev] |})
  | Raise e => fst (Statistics r cl il idx w) = Raise e
  end.
Proof.
  intros Hr.
  unfold bar_plot_of, bar_df_new, df_pop1_of, df_pop_of, df_sub_of, Statistics.
  run_step.
  destruct (getitem d "Country Name") as [cn|] eqn:Ec; run_step; [|reflexivity].
  destruct (getitem d "Indicator Name") as [ind|] eqn:Ei; run_step; [|reflexivity].
  cbn [rbind]. do 3 run_step.
  rewrite getitem_getitem_mask, Ei. cbn [rmap rbind].
  destruct (py_index il idx) as [sel|] eqn:Es; run_step; [|reflexivity].
  cbn [rmap rbind]. do 6 run_step.
  set (s := getitem_mask _ d).
  set (p := getitem_mask _ s).
  destruct (iloc_col0 (dropna p)) as [c0|] eqn:E0; [|reflexivity].
  cbn [rbind]. do 3 run_step.
  replace (if idx =? 1
           then concat c0 (iloc_cols (Some (-6)) None (dropna p))
           else concat c0 (iloc_cols (Some (-8)) (Some (-2)) (dropna p)))
    with (concat c0 (bar_window idx (dropna p)))
    by (unfold bar_window; destruct (idx =? 1); reflexivity).
  destruct (set_index "Country Name" _) as [g|] eqn:Eg; [|reflexivity].
  cbn [rbind]. do 3 run_step.
  destruct (py_index (labels g) 0) as [a|] eqn:Ea; run_step; [|reflexivity].
  cbn [rbind].
  destruct (py_index (labels g) (-1)) as [b|] eqn:Eb; run_step; [|reflexivity].
  exists s, p. repeat split.
  unfold emit; cbn [heap out]. rewrite snoc4, snoc2. reflexivity.
Qed.

Lemma Statistics_line_run (w : world) (r : ref) (d : DataFrame) (cl il : list string)
  (idx : Z) :
  nth_error (heap w) r = Some d ->
  match line_plot_of d cl il idx with
  | Ok (g, ev) =>
      exists s p,
        df_sub_of d cl il = Ok s /\ df_pop_of d cl il idx = Ok p
        /\ Statistics_line r cl il idx w
           = (Ok tt, {| heap := heap w ++ [s; p; dropna p; g];
                        out := out w ++ [ev] |})
  | Raise e => fst (Statistics_line r cl il idx w) = Raise e
  end.
Proof.
  intros Hr.
  unfold line_plot_of, line_df_new, df_pop1_of, df_pop_of, df_sub_of, Statistics_line.
  run_step.
  destruct (getitem d "Country Name") as [cn|] eqn:Ec; run_step; [|reflexivity].
  destruct (getitem d "Indicator Name") as [ind|] eqn:Ei; run_step; [|reflexivity].
  cbn [rbind]. do 3 run_step.
  rewrite getitem_getitem_mask, Ei. cbn [rmap rbind].
  destruct (py_index il idx) as [sel|] eqn:Es; run_step; [|reflexivity].
  cbn [rmap rbind]. do 5 run_step.
  set (s := getitem_mask _ d).
  set (p := getitem_mask _ s).
  destruct (iloc_col0 (dropna p)) as [c0|] eqn:E0; [|reflexivity].
  cbn [rbind]. do 3 run_step.
  fold (line_window (dropna p)).
  destruct (set_index "Country Name" _) as [g|] eqn:Eg; [|reflexivity].
  cbn [rbind]. do 3 run_step.
  exists s, p. repeat split.
  unfold emit; cbn [heap out]. rewrite snoc4. reflexivity.
Qed.

Lemma correlations_run (w : world) (r : ref) (d : DataFrame) (cl il : list string)
  (idx : Z) (cmap : string) :
  nth_error (heap w) r = Some d ->
  match heatmap_of d cl il idx cmap with
  | Ok (t, ev) =>
      exists s u,
        df_sub_of d cl il = Ok s
        /\ correlations r cl il idx cmap w
           = (Ok tt, {| heap := heap w ++ [s; u; t; transpose t];
                        out := out w ++ [Describe s; ev] |})
  | Raise e => fst (correlations r cl il idx cmap w) = Raise e
  end.
Proof.
  intros Hr.
  unfold heatmap_of, df_temp_of, df_sub_of, correlations.
  run_step.
  destruct (getitem d "Country Name") as [cn|] eqn:Ec; run_step; [|reflexivity].
  destruct (getitem d "Indicator Name") as [ind|] eqn:Ei; run_step; [|reflexivity].
  cbn [rbind]. do 4 run_step.
  set (s := getitem_mask _ d).
  destruct (getitem s "Country Name") as [cn'|] eqn:Ec'; [|reflexivity].
  cbn [rbind]. run_step.
  destruct (py_index cl idx) as [country|] eqn:Es; [|reflexivity].
  cbn [rbind]. do 5 run_step.
  set (u := getitem_mask _ s).
  destruct (set_index "Indicator Name" (dropna u)) as [t1|] eqn:Et1; [|reflexivity].
  cbn [rbind]. do 3 run_step.
  destruct (drop_columns _ t1) as [t|] eqn:Et; [|reflexivity].
  do 5 run_step. cbn [rbind].
  destruct (corr (transpose t)) as [m|] eqn:Em; [|reflexivity].
  cbn [rbind]. run_step.
  exists s, u. repeat split.
  unfold emit; cbn [heap out]. rewrite snoc4, snoc2. reflexivity.
Qed.

Lemma snoc7 {A} (l : list A) (a b c d e f g : A) :
  ((((((l ++ [a]) ++ [b]) ++ [c]) ++ [d]) ++ [e]) ++ [f]) ++ [g]
  = l ++ [a; b; c; d; e; f; g].
Proof. rewrite <- !app_assoc. reflexivity. Qed.

(** [read_data] on the table [csv] read from the file: the first frame
    of the returned pair is [csv] itself, the second the cleaned table. *)
Lemma read_data_run (w : world) (csv : DataFrame) :
  match df_transpose_of csv with
  | Ok t =>
      exists a b c,
        read_data csv w
        = (Ok (length (heap w), length (heap w) + 6)%nat,
           {| heap := heap w ++ [csv; transpose csv; a; b; c; t; dropna t];
              out := out w ++ [Describe t] |})
  | Raise e => fst (read_data csv w) = Raise e
  end.
Proof.
  unfold df_transpose_of, read_data.
  do 4 run_step.
  destruct (reset_index (transpose csv)) as [t1|] eqn:E1; run_step; [|reflexivity].
  cbn [rbind]. do 3 run_step.
  destruct (iloc0 t1) as [header|] eqn:E2; [|reflexivity].
  cbn [rbind]. run_step.
  destruct (set_columns header t1) as [t2|] eqn:E3; [|reflexivity].
  cbn [rbind]. do 3 run_step.
  destruct (drop_index _ t2) as [t3|] eqn:E4; [|reflexivity].
  cbn [rbind]. do 8 run_step.
  exists t2, t3, (rename "Country Name" "Year" t3).
  unfold ret. rewrite snoc7. repeat f_equal.
  rewrite !length_app. simpl. lia.
Qed.

(** * What a call leaves alone *)

Lemma firstn_update {A} (n i : nat) (x : A) (l : list A) :
  (n <= i)%nat -> firstn n (update i x l) = firstn n l.
Proof.
  revert n i; induction l as [|y l IH]; intros [|n] [|i] H; simpl; auto; try lia.
  f_equal. apply IH. lia.
Qed.

Section Keeps.
Context {A B : Type} (n : nat).

Lemma keeps_ret (a : A) : keeps n (ret a).
Proof. intros w H. auto. Qed.

Lemma keeps_lift (r : result A) : keeps n (lift r).
Proof. intros w H. auto. Qed.

Lemma keeps_deref (r : ref) : keeps n (deref r).
Proof. intros w H. unfold deref. destruct (nth_error _ _); auto. Qed.

Lemma keeps_emit (e : event) : keeps n (emit e).
Proof. intros w H. auto. Qed.

Lemma keeps_assign (r : ref) (f : DataFrame) : (n <= r)%nat -> keeps n (assign r f).
Proof.
  intros Hr w H. simpl. rewrite update_length. split; auto.
  apply firstn_update; assumption.
Qed.

Lemma keeps_bind (m : M A) (k : A -> M B) :
  keeps n m -> (forall a, keeps n (k a)) -> keeps n (bind m k).
Proof.
  intros Hm Hk w H. unfold bind.
  destruct (Hm w H) as [H1 H2].
  destruct (m w) as [[a|e] w']; simpl in *.
  - destruct (Hk a w' H1) as [H3 H4]. split; congruence.
  - auto.
Qed.

Lemma keeps_bind_new (f : DataFrame) (k : ref -> M B) :
  (forall r, (n <= r)%nat -> keeps n (k r)) -> keeps n (bind (new f) k).
Proof.
  intros Hk w H. rewrite bind_new.
  assert (H' : (n <= length (heap w ++ [f]))%nat) by (rewrite length_app; lia).
  destruct (Hk (length (heap w)) H {| heap := heap w ++ [f]; out := out w |} H')
    as [H1 H2].
  split; auto. rewrite H2. simpl.
  rewrite firstn_app. replace (n - length (heap w))%nat with 0%nat by lia.
  simpl. apply app_nil_r.
Qed.
End Keeps.

Lemma keeps_unchanged {A} (m : M A) (w : world) :
  keeps (length (heap w)) m -> unchanged w (snd (m w)).
Proof.
  intros H r f Hr. destruct (H w (le_n _)) as [H1 H2].
  rewrite firstn_all in H2.
  assert (Hlt : (r < length (heap w))%nat) by (apply nth_error_Some; congruence).
  rewrite <- (firstn_skipn (length (heap w)) (heap (snd (m w)))), H2.
  rewrite nth_error_app1; auto.
Qed.

Ltac keeps_tac :=
  repeat first
    [ apply keeps_bind_new; intros ? ?
    | apply keeps_bind; [|intros ?]
    | apply keeps_deref
    | apply keeps_lift
    | apply keeps_emit
    | apply keeps_ret
    | apply keeps_assign; assumption ].

Lemma Statistics_keeps (n : nat) (df : ref) (cl il : list string) (idx : Z) :
  keeps n (Statistics df cl il idx).
Proof. unfold Statistics. keeps_tac. Qed.

Lemma Statistics_line_keeps (n : nat) (df : ref) (cl il : list string) (idx : Z) :
  keeps n (Statistics_line df cl il idx).
Proof. unfold Statistics_line. keeps_tac. Qed.

Lemma correlations_keeps (n : nat) (df : ref) (cl il : list string) (idx : Z)
  (cmap : string) :
  keeps n (correlations df cl il idx cmap).
Proof. unfold correlations. keeps_tac. Qed.

Lemma read_data_keeps (n : nat) (csv : DataFrame) : keeps n (read_data csv).
Proof. unfold read_data. keeps_tac. Qed.

(** * The reshaping of [read_data] *)

Lemma enumerate_snd {A} (l : list A) : map snd (enumerate l) = l.
Proof.
  unfold enumerate. generalize 0%nat.
  induction l as [|x l IH]; intros k; simpl; auto. rewrite IH. reflexivity.
Qed.

Lemma enumerate_length {A} (l : list A) : length (enumerate l) = length l.
Proof. unfold enumerate. rewrite length_combine, length_seq. lia. Qed.

Lemma range_index_no_str (s : string) (n : nat) :
  existsb (label_eqb (Str s)) (range_index n) = false.
Proof.
  unfold range_index. generalize 0%nat.
  induction n as [|n IH]; intros k; simpl; auto.
Qed.

Lemma range_index_length (n : nat) : length (range_index n) = n.
Proof. unfold range_index. rewrite length_map, length_seq. reflexivity. Qed.

Lemma transpose_labels (f : DataFrame) : labels (transpose f) = index f.
Proof.
  unfold labels, transpose; simpl. rewrite map_map. simpl. apply enumerate_snd.
Qed.

Lemma iloc_row_length (i : nat) (f : DataFrame) : length (iloc_row i f) = ncols f.
Proof. unfold iloc_row, ncols. apply length_map. Qed.

Lemma select_all_true_short {A} (m : list bool) (l : list A) :
  forallb (fun b => b) m = true -> (length l <= length m)%nat -> select m l = l.
Proof.
  revert l; induction m as [|b m IH]; intros [|x l]; simpl; auto; try lia.
  destruct b; simpl; try discriminate.
  intros H E. rewrite IH; auto. lia.
Qed.

(** The mask of [drop(index=[0, 1, 2, 3])] under a [RangeIndex]. *)
Lemma drop_mask_range (k : nat) :
  map (fun i => negb (existsb (label_eqb i) [Int 0; Int 1; Int 2; Int 3]))
      (range_index (4 + k))
  = false :: false :: false :: false :: repeat true k.
Proof.
  unfold range_index. simpl. do 4 f_equal.
  rewrite map_map.
  assert (H : forall s, (4 <= s)%nat ->
            map (fun i => negb (existsb (label_eqb (Int (Z.of_nat i)))
                                        [Int 0; Int 1; Int 2; Int 3])) (seq s k)
            = repeat true k).
  { induction k as [|k IH]; intros s Hs; simpl; auto.
    rewrite IH by lia. f_equal.
    destruct (Z.eqb_spec (Z.of_nat s) 0); [lia|].
    destruct (Z.eqb_spec (Z.of_nat s) 1); [lia|].
    destruct (Z.eqb_spec (Z.of_nat s) 2); [lia|].
    destruct (Z.eqb_spec (Z.of_nat s) 3); [lia|]. reflexivity. }
  apply H. lia.
Qed.

Lemma select_drop4 {A} (k : nat) (l : list A) :
  (length l <= 4 + k)%nat ->
  select (false :: false :: false :: false :: repeat true k) l = skipn 4 l.
Proof.
  intros H.
  destruct l as [|x1 [|x2 [|x3 [|x4 l]]]]; try reflexivity.
  simpl. simpl in H. apply select_all_true_short.
  - apply forallb_forall. intros b Hb. apply repeat_spec in Hb. subst. reflexivity.
  - rewrite repeat_length. lia.
Qed.

Lemma drop_index_range (f : DataFrame) (k : nat) :
  index f = range_index (4 + k) ->
  Forall (fun c => (length (snd c) <= 4 + k)%nat) (columns f) ->
  drop_index [Int 0; Int 1; Int 2; Int 3] f
  = Ok {| index := skipn 4 (index f);
          columns := map (fun c => (fst c, skipn 4 (snd c))) (columns f) |}.
Proof.
  intros Hi Hc. unfold drop_index.
  assert (Hall : forallb (fun l => existsb (label_eqb l) (index f))
                         [Int 0; Int 1; Int 2; Int 3] = true)
    by (rewrite Hi; reflexivity).
  rewrite Hall.
  assert (Hmask : map (fun i => negb (existsb (label_eqb i) [Int 0; Int 1; Int 2; Int 3]))
                      (index f)
                  = false :: false :: false :: false :: repeat true k)
    by (rewrite Hi; apply drop_mask_range).
  rewrite Hmask.
  unfold getitem_mask. f_equal. f_equal.
  - apply select_drop4. rewrite Hi, range_index_length. lia.
  - apply map_ext_in. intros c Hin. f_equal.
    apply select_drop4. rewrite Forall_forall in Hc. auto.
Qed.

Lemma reset_index_transpose (df : DataFrame) :
  index df = range_index (nrows df) ->
  reset_index (transpose df)
  = Ok {| index := range_index (ncols df);
          columns := (Str "index", labels df)
                     :: map (fun il => (snd il, iloc_row (fst il) df))
                            (enumerate (index df)) |}.
Proof.
  intros Hi. unfold reset_index.
  rewrite transpose_labels, Hi, range_index_no_str. cbn [negb].
  rewrite <- Hi. unfold transpose, nrows, ncols, labels; cbn [index columns].
  rewrite length_map. reflexivity.
Qed.

(** Column [k] of the transposed table below its four leading rows. *)
Lemma body_column (df : DataFrame) (k : nat) :
  map (fun r => nth (S k) r NaN) (skipn 4 (transposed_rows df))
  = skipn 4 (iloc_row k df).
Proof.
  unfold transposed_rows, iloc_row. rewrite <- !skipn_map, map_map. reflexivity.
Qed.

Lemma body_labels (df : DataFrame) :
  map (fun r => nth 0 r NaN) (skipn 4 (transposed_rows df)) = skipn 4 (labels df).
Proof.
  unfold transposed_rows, labels. rewrite <- !skipn_map, map_map. reflexivity.
Qed.

Lemma reshaped_columns (df : DataFrame) (hs idx : list value) (k : nat) :
  length hs = length idx ->
  map (fun lc => (rename_label "Country Name" "Year" (fst lc), skipn 4 (snd (snd lc))))
      (combine hs (map (fun il => (snd il, iloc_row (fst il) df))
                       (combine (seq k (length idx)) idx)))
  = map (fun jl => (snd jl, map (fun r => nth (fst jl) r NaN)
                                (skipn 4 (transposed_rows df))))
        (combine (seq (S k) (length hs))
                 (map (rename_label "Country Name" "Year") hs)).
Proof.
  revert idx k; induction hs as [|h hs IH]; intros [|i idx] k;
    cbn [map combine seq length fst snd]; try discriminate; auto.
  intros [= E]. rewrite body_column. f_equal. apply IH. assumption.
Qed.

Lemma enumerate_fst {A} (l : list A) : map fst (enumerate l) = seq 0 (length l).
Proof.
  unfold enumerate. generalize 0%nat.
  induction l as [|x l IH]; intros k; simpl; auto. rewrite IH. reflexivity.
Qed.

(** The first row of the transposed table is the first raw column under
    its own label. *)
Lemma header_row (df : DataFrame) (c0 : column) (rest : list column) :
  wf df -> columns df = c0 :: rest ->
  map (fun il : nat * value => nth 0 (iloc_row (fst il) df) NaN) (enumerate (index df))
  = snd c0.
Proof.
  intros Hwf Hc.
  assert (Hlen : length (snd c0) = length (index df)).
  { unfold wf in Hwf. rewrite Hc in Hwf. inversion Hwf; subst. assumption. }
  transitivity (map (fun i => nth 0 (iloc_row i df) NaN) (map fst (enumerate (index df)))).
  - rewrite map_map. reflexivity.
  - rewrite enumerate_fst, <- Hlen.
    rewrite <- (map_nth_seq (snd c0) NaN) at 2.
    apply map_ext. intros i. unfold iloc_row. rewrite Hc. reflexivity.
Qed.

Lemma df_transpose_of_steps (df : DataFrame) :
  raw_table df -> (4 <= ncols df)%nat ->
  df_transpose_of df
  = Ok (frame_of_rows
          (map (rename_label "Country Name" "Year") (hd [] (transposed_rows df)))
          (skipn 4 (transposed_rows df))).
Proof.
  intros [Hwf Hi] H4. unfold df_transpose_of.
  rewrite (reset_index_transpose df Hi). cbn [rbind].
  destruct (columns df) as [|c0 rest] eqn:Ec; [unfold ncols in H4; rewrite Ec in H4; simpl in H4; lia|].
  assert (Hlen : length (snd c0) = length (index df)).
  { unfold wf in Hwf. rewrite Ec in Hwf. inversion Hwf; subst. assumption. }
  destruct (ncols df) as [|[|[|[|k]]]] eqn:EK; try lia.
  unfold iloc0. cbn [index].
  change (range_index (S (S (S (S k))))) with
    (Int 0 :: Int 1 :: Int 2 :: Int 3 :: map (fun i => Int (Z.of_nat i)) (seq 4 k)) at 1.
  cbn [rbind].
  set (colsT := map (fun il : nat * value => (snd il, iloc_row (fst il) df))
                    (enumerate (index df))).
  assert (Hheader : iloc_row 0 {| index := range_index (S (S (S (S k))));
                                  columns := (Str "index", labels df) :: colsT |}
                    = fst c0 :: snd c0).
  { unfold iloc_row. cbn [columns map snd]. f_equal.
    - unfold labels. rewrite Ec. reflexivity.
    - unfold colsT. rewrite map_map. cbn [snd]. apply (header_row df c0 rest Hwf Ec). }
  rewrite Hheader.
  unfold set_columns, ncols. cbn [columns length].
  assert (HlenT : @length column colsT = length (snd c0)).
  { unfold colsT. rewrite length_map, enumerate_length. auto. }
  rewrite HlenT, Nat.eqb_refl. cbn [rbind index columns combine map fst snd].
  erewrite (drop_index_range _ k); cbn [index columns].
  - cbn [rbind]. unfold reset_index_drop, rename, frame_of_rows, nrows.
    cbn [index columns]. f_equal. f_equal.
    + f_equal. rewrite !length_skipn. unfold transposed_rows.
      rewrite range_index_length, length_map.
      change (length (columns df)) with (ncols df).
      rewrite EK. reflexivity.
    + assert (Hhd : hd [] (transposed_rows df) = fst c0 :: snd c0)
        by (unfold transposed_rows; rewrite Ec; reflexivity).
      rewrite Hhd.
      unfold enumerate. cbn [length map seq combine fst snd].
      f_equal.
      * rewrite body_labels. reflexivity.
      * rewrite !map_map. cbn [fst snd]. unfold colsT, enumerate.
        rewrite length_map.
        rewrite <- (reshaped_columns df (snd c0) (index df) 0 Hlen).
        reflexivity.
  - reflexivity.
  - constructor.
    + cbn [snd]. unfold labels. rewrite length_map.
      change (length (columns df)) with (ncols df). lia.
    + rewrite Forall_forall. intros c Hin.
      apply in_map_iff in Hin as ([h c'] & <- & Hin). cbn [snd fst].
      apply in_combine_r in Hin. unfold colsT in Hin.
      apply in_map_iff in Hin as (il & <- & _). cbn [snd].
      rewrite iloc_row_length. lia.
Qed.

(** ** The steps of the description against the operations of the code *)

Lemma year_header_rename (l : value) :
  year_header l = rename_label "Country Name" "Year" l.
Proof.
  unfold year_header, rename_label. destruct l; reflexivity.
Qed.

Lemma has_missing_complete (c : column) :
  negb (has_missing c) = complete c.
Proof.
  unfold has_missing, complete. induction (snd c) as [|v vs IH]; [reflexivity|].
  cbn [existsb forallb]. rewrite negb_orb, IH. destruct v; reflexivity.
Qed.

Lemma drop_missing_columns_dropna (f : DataFrame) :
  drop_missing_columns f = dropna f.
Proof.
  unfold drop_missing_columns, dropna. f_equal.
  apply filter_ext. intros c. apply has_missing_complete.
Qed.

Lemma df_clean_of_steps (df : DataFrame) :
  raw_table df -> (4 <= ncols df)%nat ->
  df_clean_of df = Ok (reshape_by_steps df).
Proof.
  intros Hraw H4. unfold df_clean_of, reshape_by_steps.
  rewrite (df_transpose_of_steps df Hraw H4). cbn [rmap].
  rewrite drop_missing_columns_dropna.
  rewrite (map_ext _ _ year_header_rename). reflexivity.
Qed.


(** * Correlation *)












Lemma transpose_ncols (f : DataFrame) : ncols (transpose f) = nrows f.
Proof. unfold ncols, transpose, nrows; simpl. rewrite length_map. apply enumerate_length. Qed.



Lemma nth_error_appended {A} (l l' : list A) (k : nat) :
  nth_error (l ++ l') (length l + k) = nth_error l' k.
Proof.
  rewrite nth_error_app2 by lia. f_equal. lia.
Qed.

(** What a successful [read_data] returns. *)
Lemma read_data_returns (csv : DataFrame) (w w' : world) (df c : ref) :
  read_data csv w = (Ok (df, c), w') ->
  nth_error (heap w') df = Some csv
  /\ exists t, df_transpose_of csv = Ok t
               /\ nth_error (heap w') c = Some (dropna t)
               /\ out w' = out w ++ [Describe t].
Proof.
  intros H. pose proof (read_data_run w csv) as Hrun.
  destruct (df_transpose_of csv) as [t|e].
  - destruct Hrun as (a & b & x & Hrun). rewrite Hrun in H.
    injection H as <- <- <-. cbn [heap out]. split.
    + rewrite <- (Nat.add_0_r (length (heap w))) at 1.
      rewrite nth_error_appended. reflexivity.
    + exists t. repeat split. rewrite nth_error_appended. reflexivity.
  - rewrite H in Hrun. discriminate Hrun.
Qed.

(** * The frames a successful call builds *)

Lemma Statistics_frames (w w' : world) (r : ref) (d : DataFrame) (cl il : list string)
  (idx : Z) :
  nth_error (heap w) r = Some d ->
  Statistics r cl il idx w = (Ok tt, w') ->
  exists s p g ev,
    df_sub_of d cl il = Ok s /\ df_pop_of d cl il idx = Ok p
    /\ bar_plot_of d cl il idx = Ok (g, ev)
    /\ heap w' = heap w ++ [s; p; dropna p; g]
    /\ out w' = out w ++ [Describe p; ev].
Proof.
  intros Hr H. pose proof (Statistics_run w r d cl il idx Hr) as Hrun.
  destruct (bar_plot_of d cl il idx) as [[g ev]|e].
  - destruct Hrun as (s & p & Hs & Hp & Hrun). rewrite Hrun in H.
    injection H as <-. exists s, p, g, ev. auto.
  - rewrite H in Hrun. discriminate Hrun.
Qed.

Lemma Statistics_line_frames (w w' : world) (r : ref) (d : DataFrame)
  (cl il : list string) (idx : Z) :
  nth_error (heap w) r = Some d ->
  Statistics_line r cl il idx w = (Ok tt, w') ->
  exists s p g ev,
    df_sub_of d cl il = Ok s /\ df_pop_of d cl il idx = Ok p
    /\ line_plot_of d cl il idx = Ok (g, ev)
    /\ heap w' = heap w ++ [s; p; dropna p; g]
    /\ out w' = out w ++ [ev].
Proof.
  intros Hr H. pose proof (Statistics_line_run w r d cl il idx Hr) as Hrun.
  destruct (line_plot_of d cl il idx) as [[g ev]|e].
  - destruct Hrun as (s & p & Hs & Hp & Hrun). rewrite Hrun in H.
    injection H as <-. exists s, p, g, ev. auto.
  - rewrite H in Hrun. discriminate Hrun.
Qed.

(** The plotted frames in terms of the cleaned subset. *)
Lemma bar_plot_of_window (d : DataFrame) (cl il : list string) (idx : Z)
  (p1 g : DataFrame) (ev : event) :
  df_pop1_of d cl il idx = Ok p1 ->
  bar_plot_of d cl il idx = Ok (g, ev) ->
  exists c0 title a b,
    iloc_col0 p1 = Ok c0
    /\ set_index "Country Name" (concat c0 (bar_window idx p1)) = Ok g
    /\ ev = BarPlot g title a b.
Proof.
  intros Hp H. unfold bar_plot_of, bar_df_new in H. rewrite Hp in H. cbn [rbind] in H.
  destruct (iloc_col0 p1) as [c0|]; [|discriminate]. cbn [rbind] in H.
  destruct (set_index "Country Name" _) as [g'|] eqn:Eg; [|discriminate].
  cbn [rbind] in H.
  destruct (py_index il idx) as [title|]; [|discriminate]. cbn [rbind] in H.
  destruct (py_index (labels g') 0) as [a|]; [|discriminate]. cbn [rbind] in H.
  destruct (py_index (labels g') (-1)) as [b|]; [|discriminate]. cbn [rbind] in H.
  injection H as <- <-. exists c0, title, a, b. repeat split. exact Eg.
Qed.

Lemma line_plot_of_window (d : DataFrame) (cl il : list string) (idx : Z)
  (p1 g : DataFrame) (ev : event) :
  df_pop1_of d cl il idx = Ok p1 ->
  line_plot_of d cl il idx = Ok (g, ev) ->
  exists c0 title,
    iloc_col0 p1 = Ok c0
    /\ set_index "Country Name" (concat c0 (iloc_cols (Some (-8)) (Some (-2)) p1)) = Ok g
    /\ py_index il idx = Ok title
    /\ ev = LinePlot g title.
Proof.
  intros Hp H. unfold line_plot_of, line_df_new in H. rewrite Hp in H. cbn [rbind] in H.
  destruct (iloc_col0 p1) as [c0|]; [|discriminate]. cbn [rbind] in H.
  unfold line_window in H.
  destruct (set_index "Country Name" _) as [g'|] eqn:Eg; [|discriminate].
  cbn [rbind] in H.
  destruct (py_index il idx) as [title|]; [|discriminate]. cbn [rbind] in H.
  injection H as <- <-. exists c0, title. repeat split. exact Eg.
Qed.

(** * The claims *)

(** C1. Dropping the columns with a missing value keeps exactly the
    columns without one: a column of the result is a column of the table
    whose count of missing cells is zero, the rows are untouched, and on a
    rectangular table the surviving columns are those at the positions
    every row reports, the intersection of the years reported by the rows.
    This holds for any table, hence for the transposed table of
    [read_data] and for the filtered subsets of [Statistics],
    [Statistics_line] and [correlations]; the cleaned tables of
    [read_data] and of the two chart functions have no missing cell. *)
Theorem dropna_keeps_reported_columns :
  (forall f c, In c (columns (dropna f)) <-> In c (columns f) /\ count_na c = 0%nat)
  /\ (forall f, index (dropna f) = index f)
  /\ (forall f, wf f ->
        columns (dropna f)
        = map snd (filter (fun jc => reported_by_all f (fst jc)) (enumerate (columns f))))
  /\ (forall df t c, df_clean_of df = Ok t -> In c (columns t) -> count_na c = 0%nat)
  /\ (forall df cl il idx t c,
        df_pop1_of df cl il idx = Ok t -> In c (columns t) -> count_na c = 0%nat).
Proof.
  split; [|split; [|split; [|split]]].
  - intros f c. rewrite dropna_complete, count_na_complete. tauto.
  - reflexivity.
  - intros f. apply dropna_reported.
  - intros df t c H Hc. unfold df_clean_of in H.
    destruct (df_transpose_of df); simpl in H; inversion H; subst.
    apply dropna_complete in Hc. apply count_na_complete. tauto.
  - intros df cl il idx t c H Hc. unfold df_pop1_of in H.
    destruct (df_pop_of df cl il idx); simpl in H; inversion H; subst.
    apply dropna_complete in Hc. apply count_na_complete. tauto.
Qed.

Lemma dropna_keeps_reported_columns_witness :
  labels (dropna climate)
  = map Str ["Country Name"; "Country Code"; "Indicator Name"; "Indicator Code"; "2002"]
  /\ columns (dropna climate)
     = map snd (filter (fun jc => reported_by_all climate (fst jc))
                       (enumerate (columns climate)))
  /\ (forall c, In c (columns climate_pop1) -> count_na c = 0%nat).
Proof.
  split; [reflexivity|]. split.
  - apply (proj1 (proj2 (proj2 dropna_keeps_reported_columns)) climate).
    repeat constructor.
  - intros c.
    apply (proj2 (proj2 (proj2 (proj2 dropna_keeps_reported_columns)))
             climate country_list indicator_list 1 climate_pop1).
    reflexivity.
Defined.

(** C2 fails as stated: the cleaned subset of the table [two_years] has
    six columns, and for an index other than 1 the slice [-8:-2] keeps
    four of them, the identifier columns, not six year columns. *)
Lemma bar_window_six_counterexample :
  exists p1, df_pop1_of two_years ["India"] [CO2] 0 = Ok p1
             /\ ncols p1 = 6%nat
             /\ ncols (bar_window 0 p1) = 4%nat
             /\ ncols (bar_window 0 p1) <> 6%nat
             /\ year_columns (columns (bar_window 0 p1)) = [].
Proof.
  eexists. split; [reflexivity|]. repeat split. discriminate.
Qed.

(** C2, amended.  On a cleaned subset of at least six columns, index 1
    keeps exactly the last six columns; on one of at least eight columns
    any other index keeps exactly six columns, those of the slice [-8:-2],
    which leaves the final two columns out.  When every column after the
    fourth is a year, these six are year columns as soon as the table has
    ten columns (index 1) or twelve (any other index).  The bar chart of a
    successful call shows the first column and this window, under the
    Country Name index. *)
Theorem bar_window_six (df : DataFrame) (cl il : list string) (idx : Z) (p1 : DataFrame) :
  df_pop1_of df cl il idx = Ok p1 ->
  (idx = 1 -> (6 <= ncols p1)%nat ->
     columns p1 = firstn (ncols p1 - 6) (columns p1) ++ columns (bar_window idx p1)
     /\ ncols (bar_window idx p1) = 6%nat)
  /\ (idx <> 1 -> (8 <= ncols p1)%nat ->
        exists c1 c2,
          columns p1 = firstn (ncols p1 - 8) (columns p1)
                       ++ columns (bar_window idx p1) ++ [c1; c2]
          /\ ncols (bar_window idx p1) = 6%nat)
  /\ (Forall (fun c => is_year c = true) (skipn 4 (columns p1)) ->
        (idx = 1 -> (10 <= ncols p1)%nat ->
           Forall (fun c => is_year c = true) (columns (bar_window idx p1)))
        /\ (idx <> 1 -> (12 <= ncols p1)%nat ->
              Forall (fun c => is_year c = true) (columns (bar_window idx p1))))
  /\ (forall w w' r,
        nth_error (heap w) r = Some df ->
        Statistics r cl il idx w = (Ok tt, w') ->
        exists p c0 g title a b,
          df_pop_of df cl il idx = Ok p
          /\ iloc_col0 p1 = Ok c0
          /\ set_index "Country Name" (concat c0 (bar_window idx p1)) = Ok g
          /\ out w' = out w ++ [Describe p; BarPlot g title a b]).
Proof.
  intros Hp1. split; [|split; [|split]].
  - unfold bar_window, ncols. intros -> H. simpl. apply py_slice_last6_long. exact H.
  - unfold bar_window, ncols.
    intros Hne H. destruct (Z.eqb_spec idx 1) as [E|_]; [contradiction|]. simpl.
    apply py_slice_8_2_long. exact H.
  - unfold bar_window, ncols. intros Hy. split.
    + intros -> H. simpl. rewrite py_slice_last6.
      apply (Forall_skipn_more _ 4); [lia | exact Hy].
    + intros Hne H. destruct (Z.eqb_spec idx 1) as [E|_]; [contradiction|]. simpl.
      rewrite py_slice_8_2. apply Forall_firstn.
      apply (Forall_skipn_more _ 4); [lia | exact Hy].
  - intros w w' r Hr Hrun.
    destruct (Statistics_frames _ _ _ _ _ _ _ Hr Hrun)
      as (s & p & g & ev & _ & Hp & Hplot & _ & Hout).
    destruct (bar_plot_of_window _ _ _ _ _ _ _ Hp1 Hplot)
      as (c0 & title & a & b & H0 & Hg & ->).
    exists p, c0, g, title, a, b. auto.
Qed.

Lemma bar_window_six_witness :
  df_pop1_of sample_table country_list indicator_list 1 = Ok sample_pop1
  /\ df_pop1_of sample_table ["India"; "Nigeria"] [CO2] 0 = Ok sample_pop1
  /\ (columns sample_pop1
      = firstn (ncols sample_pop1 - 6) (columns sample_pop1)
        ++ columns (bar_window 1 sample_pop1)
      /\ ncols (bar_window 1 sample_pop1) = 6%nat)
  /\ (exists c1 c2,
        columns sample_pop1
        = firstn (ncols sample_pop1 - 8) (columns sample_pop1)
          ++ columns (bar_window 0 sample_pop1) ++ [c1; c2]
        /\ ncols (bar_window 0 sample_pop1) = 6%nat)
  /\ Forall (fun c => is_year c = true) (columns (bar_window 1 sample_pop1))
  /\ Forall (fun c => is_year c = true) (columns (bar_window 0 sample_pop1)).
Proof.
  assert (E1 : df_pop1_of sample_table country_list indicator_list 1 = Ok sample_pop1)
    by reflexivity.
  assert (E0 : df_pop1_of sample_table ["India"; "Nigeria"] [CO2] 0 = Ok sample_pop1)
    by reflexivity.
  assert (Hy : Forall (fun c => is_year c = true) (skipn 4 (columns sample_pop1)))
    by (repeat constructor).
  destruct (bar_window_six _ _ _ _ _ E1) as (H1 & _ & H3 & _).
  destruct (bar_window_six _ _ _ _ _ E0) as (_ & H2 & H4 & _).
  split; [exact E1|]. split; [exact E0|].
  split; [apply H1; [reflexivity | vm_compute; lia]|].
  split; [apply H2; [discriminate | vm_compute; lia]|].
  split.
  - apply (proj1 (H3 Hy)); [reflexivity | vm_compute; lia].
  - apply (proj2 (H4 Hy)); [discriminate | vm_compute; lia].
Defined.

(** C3. The filtered series of [Statistics] and [Statistics_line] (lines
    50-52 and 138-140) consists exactly of the rows of the raw table, each
    under its own index label, whose Country Name is one of the selected
    countries and whose Indicator Name is [indicator_list[index]]; the
    columns keep their labels.  It is the second frame either function
    builds.  On the sample table of two countries, one indicator and ten
    year columns the filter yields exactly two rows. *)
Theorem filtered_series_rows :
  (forall df cl il idx p,
      wf df -> df_pop_of df cl il idx = Ok p ->
      exists jc ji sel,
        position (Str "Country Name") (columns df) = Some jc
        /\ position (Str "Indicator Name") (columns df) = Some ji
        /\ py_index il idx = Ok sel
        /\ labels p = labels df
        /\ records p = filter (fun ir => row_selected cl sel jc ji (snd ir)) (records df))
  /\ (forall w w' r df cl il idx,
        nth_error (heap w) r = Some df ->
        Statistics r cl il idx w = (Ok tt, w')
        \/ Statistics_line r cl il idx w = (Ok tt, w') ->
        exists p, df_pop_of df cl il idx = Ok p
                  /\ nth_error (heap w') (length (heap w) + 1) = Some p)
  /\ (exists p, df_pop_of sample_table ["India"; "Nigeria"] ["CO2 emissions (kt)"] 0 = Ok p
                /\ nrows p = 2%nat /\ length (rows p) = 2%nat
                /\ length (year_columns (columns p)) = 10%nat).
Proof.
  split; [|split].
  - intros df cl il idx p Hwf H.
    destruct (df_pop_of_rows df cl il idx p Hwf H) as (jc & ji & sel & Hc & Hi & Hs & ->).
    exists jc, ji, sel. repeat split; auto.
    + apply getitem_mask_labels.
    + rewrite getitem_mask_records by assumption.
      unfold records. apply select_records.
  - intros w w' r df cl il idx Hr [H|H].
    + destruct (Statistics_frames _ _ _ _ _ _ _ Hr H)
        as (s & p & g & ev & _ & Hp & _ & Hheap & _).
      exists p. split; [exact Hp|]. rewrite Hheap, nth_error_appended. reflexivity.
    + destruct (Statistics_line_frames _ _ _ _ _ _ _ Hr H)
        as (s & p & g & ev & _ & Hp & _ & Hheap & _).
      exists p. split; [exact Hp|]. rewrite Hheap, nth_error_appended. reflexivity.
  - eexists. split; [reflexivity|]. repeat split.
Qed.

Lemma filtered_series_rows_witness :
  exists jc ji sel,
    position (Str "Country Name") (columns climate) = Some jc
    /\ position (Str "Indicator Name") (columns climate) = Some ji
    /\ py_index indicator_list 1 = Ok sel
    /\ labels (getitem_mask [true; false; true; false] climate) = labels climate
    /\ records (getitem_mask [true; false; true; false] climate)
       = filter (fun ir => row_selected country_list sel jc ji (snd ir)) (records climate).
Proof.
  apply (proj1 filtered_series_rows climate country_list indicator_list 1).
  - repeat constructor.
  - reflexivity.
Defined.




(** C5. The cleaning step is idempotent: dropping the columns with a
    missing value from a table that went through it changes nothing, for
    any table, for the cleaned table of [read_data] and for the cleaned
    subsets of the chart functions. *)
Theorem cleaning_idempotent :
  (forall f, dropna (dropna f) = dropna f)
  /\ (forall df t, df_clean_of df = Ok t -> dropna t = t)
  /\ (forall df cl il idx t, df_pop1_of df cl il idx = Ok t -> dropna t = t).
Proof.
  split; [|split].
  - apply dropna_idem.
  - intros df t H. unfold df_clean_of in H.
    destruct (df_transpose_of df); simpl in H; inversion H; subst. apply dropna_idem.
  - intros df cl il idx t H. unfold df_pop1_of in H.
    destruct (df_pop_of df cl il idx); simpl in H; inversion H; subst. apply dropna_idem.
Qed.

Lemma cleaning_idempotent_witness :
  (exists t, df_clean_of climate = Ok t /\ dropna t = t)
  /\ (exists t, df_pop1_of climate country_list indicator_list 1 = Ok t /\ dropna t = t).
Proof.
  split.
  - eexists. split; [reflexivity|].
    apply (proj1 (proj2 cleaning_idempotent) climate). reflexivity.
  - eexists. split; [reflexivity|].
    apply (proj2 (proj2 cleaning_idempotent) climate country_list indicator_list 1).
    reflexivity.
Defined.

(** C6.  [Statistics_line] takes the slice [-8:-2] of the cleaned subset
    as its window whatever the index: for every index the frame of line
    143 is the first column followed by the columns at positions
    [max(0, n-8)] to [n-3] of the cleaned subset of that index, and a
    successful call plots this frame under its Country Name index. *)
Theorem line_window_any_index (df : DataFrame) (cl il : list string) (idx : Z)
  (p1 : DataFrame) :
  df_pop1_of df cl il idx = Ok p1 ->
  exists c0,
    iloc_col0 p1 = Ok c0
    /\ line_df_new df cl il idx
       = Ok (concat c0 (iloc_cols (Some (-8)) (Some (-2)) p1))
    /\ columns (line_window p1)
       = firstn (ncols p1 - 2 - (ncols p1 - 8)) (skipn (ncols p1 - 8) (columns p1))
    /\ index (line_window p1) = index p1
    /\ forall w w' r,
         nth_error (heap w) r = Some df ->
         Statistics_line r cl il idx w = (Ok tt, w') ->
         exists g title,
           set_index "Country Name"
             (concat c0 (iloc_cols (Some (-8)) (Some (-2)) p1)) = Ok g
           /\ py_index il idx = Ok title
           /\ out w' = out w ++ [LinePlot g title].
Proof.
  intros H.
  destruct (df_pop1_of_ids _ _ _ _ _ H) as [(c & Hin & _) _].
  destruct (columns p1) as [|c0 rest] eqn:Ec; [destruct Hin|].
  exists c0.
  assert (H0 : iloc_col0 p1 = Ok c0) by (unfold iloc_col0; rewrite Ec; reflexivity).
  assert (Hn : line_df_new df cl il idx = Ok (concat c0 (line_window p1)))
    by (unfold line_df_new; rewrite H; cbn [rbind]; rewrite H0; reflexivity).
  split; [exact H0|]. split; [exact Hn|]. split; [|split].
  - unfold line_window, iloc_cols, ncols; cbn [columns]. rewrite <- Ec.
    apply py_slice_8_2.
  - reflexivity.
  - intros w w' r Hr Hrun.
    destruct (Statistics_line_frames _ _ _ _ _ _ _ Hr Hrun)
      as (s & p & g & ev & _ & _ & Hplot & _ & Hout).
    destruct (line_plot_of_window _ _ _ _ _ _ _ H Hplot)
      as (c0' & title & H0' & Hg & Ht & ->).
    rewrite H0 in H0'. injection H0' as <-.
    exists g, title. auto.
Qed.

Lemma line_window_any_index_witness :
  exists c0,
    iloc_col0 sample_pop1 = Ok c0
    /\ line_df_new sample_table country_list indicator_list 1
       = Ok (concat c0 (iloc_cols (Some (-8)) (Some (-2)) sample_pop1))
    /\ columns (line_window sample_pop1)
       = firstn (ncols sample_pop1 - 2 - (ncols sample_pop1 - 8))
                (skipn (ncols sample_pop1 - 8) (columns sample_pop1))
    /\ index (line_window sample_pop1) = index sample_pop1
    /\ forall w w' r,
         nth_error (heap w) r = Some sample_table ->
         Statistics_line r country_list indicator_list 1 w = (Ok tt, w') ->
         exists g title,
           set_index "Country Name"
             (concat c0 (iloc_cols (Some (-8)) (Some (-2)) sample_pop1)) = Ok g
           /\ py_index indicator_list 1 = Ok title
           /\ out w' = out w ++ [LinePlot g title].
Proof.
  apply (line_window_any_index sample_table country_list indicator_list 1 sample_pop1).
  reflexivity.
Defined.

(** C7.  On a raw table (rectangular, under the [RangeIndex] of
    [read_csv], with its four identifier columns at least) the cleaned
    table of [read_data] is the one the steps describe: the table is
    transposed, its first row becomes the header, the four leading rows
    are dropped, the header 'Country Name' becomes 'Year', and every
    column with a missing value is dropped.  The five steps are written
    out on their own in [reshape_by_steps], with their own renaming and
    their own test for a missing cell; in the cleaned table no cell is
    missing and no column is still called 'Country Name'.  The call
    returns the raw table with it. *)
Theorem read_data_by_steps (csv : DataFrame) :
  raw_table csv -> (4 <= ncols csv)%nat ->
  df_clean_of csv = Ok (reshape_by_steps csv)
  /\ (forall t, df_clean_of csv = Ok t ->
        forall c, In c (columns t) ->
          fst c <> Str "Country Name" /\ forall v, In v (snd c) -> v <> NaN)
  /\ forall w, exists w',
       read_data csv w = (Ok (length (heap w), length (heap w) + 6)%nat, w')
       /\ nth_error (heap w') (length (heap w)) = Some csv
       /\ nth_error (heap w') (length (heap w) + 6) = Some (reshape_by_steps csv).
Proof.
  intros Hraw H4.
  pose proof (df_transpose_of_steps csv Hraw H4) as Hsteps.
  pose proof (df_clean_of_steps csv Hraw H4) as Hclean.
  split; [exact Hclean|]. split.
  - intros t Ht c Hin. rewrite Hclean in Ht. injection Ht as <-.
    unfold reshape_by_steps, drop_missing_columns in Hin. cbn [columns] in Hin.
    apply filter_In in Hin as [Hin Hc]. split.
    + unfold frame_of_rows in Hin. cbn [columns] in Hin.
      apply in_map_iff in Hin as ([j l] & <- & Hjl). cbn [fst snd].
      apply in_combine_r, in_map_iff in Hjl as (l0 & <- & _).
      unfold year_header. destruct l0 as [| | |s]; try discriminate.
      destruct (String.eqb s "Country Name") eqn:Es; [discriminate|].
      intros [= ->]. rewrite String.eqb_refl in Es. discriminate.
    + intros v Hv ->. unfold has_missing in Hc.
      apply negb_true_iff in Hc.
      assert (Hex : existsb (fun v => match v with NaN => true | _ => false end) (snd c) = true)
        by (apply existsb_exists; exists NaN; split; [exact Hv | reflexivity]).
      rewrite Hex in Hc. discriminate.
  - intros w. pose proof (read_data_run w csv) as Hrun.
    rewrite Hsteps in Hrun. destruct Hrun as (a & b & c & Hrun).
    eexists. split; [exact Hrun|].
    destruct (read_data_returns _ _ _ _ _ Hrun) as (Hdf & t & Ht & Hc & _).
    split; [exact Hdf|].
    rewrite Hc. rewrite Hsteps in Ht. injection Ht as <-.
    rewrite <- drop_missing_columns_dropna. unfold reshape_by_steps.
    rewrite (map_ext _ _ year_header_rename). reflexivity.
Qed.

(** On the table [climate] the steps leave the years and the one country
    whose series is complete. *)
Lemma read_data_by_steps_witness :
  df_clean_of climate
  = Ok {| index := [Int 0; Int 1; Int 2; Int 3];
          columns := [ (Str "Year", [Str "2000"; Str "2001"; Str "2002"; Str "2003"]);
                       (Str "India", [Num (17 # 10); Num (16 # 10); Num (15 # 10); Num (12 # 10)]) ] |}
  /\ reshape_by_steps climate
     = {| index := [Int 0; Int 1; Int 2; Int 3];
          columns := [ (Str "Year", [Str "2000"; Str "2001"; Str "2002"; Str "2003"]);
                       (Str "India", [Num (17 # 10); Num (16 # 10); Num (15 # 10); Num (12 # 10)]) ] |}
  /\ df_clean_of climate = Ok (reshape_by_steps climate)
  /\ (forall t, df_clean_of climate = Ok t ->
        forall c, In c (columns t) ->
          fst c <> Str "Country Name" /\ forall v, In v (snd c) -> v <> NaN)
  /\ forall w, exists w',
       read_data climate w = (Ok (length (heap w), length (heap w) + 6)%nat, w')
       /\ nth_error (heap w') (length (heap w)) = Some climate
       /\ nth_error (heap w') (length (heap w) + 6) = Some (reshape_by_steps climate).
Proof.
  split; [reflexivity|]. split; [reflexivity|].
  apply (read_data_by_steps climate).
  - split; [repeat constructor | reflexivity].
  - vm_compute. lia.
Defined.

(** C8.  The calls leave every frame that existed before them as it was,
    the table [df] they are given in particular, whether they return or
    raise: their in-place [set_index] and [drop] act on frames built
    during the call.  What a call raises, and what it builds and shows
    when it returns, is a function of the value of the table alone: the
    store grows by the new frames and the output by the printed summary
    and the plot.  [read_data] returns the table read from the file,
    unchanged, beside the cleaned table. *)
Theorem calls_leave_frames_unchanged :
  (forall df cl il idx w, unchanged w (snd (Statistics df cl il idx w)))
  /\ (forall df cl il idx w, unchanged w (snd (Statistics_line df cl il idx w)))
  /\ (forall df cl il idx cmap w, unchanged w (snd (correlations df cl il idx cmap w)))
  /\ (forall csv w, unchanged w (snd (read_data csv w)))
  /\ (forall w r d cl il idx,
        nth_error (heap w) r = Some d ->
        nth_error (heap (snd (Statistics r cl il idx w))) r = Some d
        /\ match bar_plot_of d cl il idx with
           | Ok (g, ev) =>
               exists s p,
                 df_sub_of d cl il = Ok s /\ df_pop_of d cl il idx = Ok p
                 /\ Statistics r cl il idx w
                    = (Ok tt, {| heap := heap w ++ [s; p; dropna p; g];
                                 out := out w ++ [Describe p; ev] |})
           | Raise e => fst (Statistics r cl il idx w) = Raise e
           end)
  /\ (forall w r d cl il idx,
        nth_error (heap w) r = Some d ->
        nth_error (heap (snd (Statistics_line r cl il idx w))) r = Some d
        /\ match line_plot_of d cl il idx with
           | Ok (g, ev) =>
               exists s p,
                 df_sub_of d cl il = Ok s /\ df_pop_of d cl il idx = Ok p
                 /\ Statistics_line r cl il idx w
                    = (Ok tt, {| heap := heap w ++ [s; p; dropna p; g];
                                 out := out w ++ [ev] |})
           | Raise e => fst (Statistics_line r cl il idx w) = Raise e
           end)
  /\ (forall w r d cl il idx cmap,
        nth_error (heap w) r = Some d ->
        nth_error (heap (snd (correlations r cl il idx cmap w))) r = Some d
        /\ match heatmap_of d cl il idx cmap with
           | Ok (t, ev) =>
               exists s u,
                 df_sub_of d cl il = Ok s
                 /\ correlations r cl il idx cmap w
                    = (Ok tt, {| heap := heap w ++ [s; u; t; transpose t];
                                 out := out w ++ [Describe s; ev] |})
           | Raise e => fst (correlations r cl il idx cmap w) = Raise e
           end)
  /\ (forall csv w df c w',
        read_data csv w = (Ok (df, c), w') ->
        nth_error (heap w') df = Some csv
        /\ exists t, df_clean_of csv = Ok t /\ nth_error (heap w') c = Some t).
Proof.
  split; [|split; [|split; [|split; [|split; [|split; [|split]]]]]].
  - intros. apply keeps_unchanged, Statistics_keeps.
  - intros. apply keeps_unchanged, Statistics_line_keeps.
  - intros. apply keeps_unchanged, correlations_keeps.
  - intros. apply keeps_unchanged, read_data_keeps.
  - intros w r d cl il idx Hr. split.
    + apply (keeps_unchanged _ w (Statistics_keeps _ r cl il idx)). exact Hr.
    + apply Statistics_run. exact Hr.
  - intros w r d cl il idx Hr. split.
    + apply (keeps_unchanged _ w (Statistics_line_keeps _ r cl il idx)). exact Hr.
    + apply Statistics_line_run. exact Hr.
  - intros w r d cl il idx cmap Hr. split.
    + apply (keeps_unchanged _ w (correlations_keeps _ r cl il idx cmap)). exact Hr.
    + apply correlations_run. exact Hr.
  - intros csv w df c w' H.
    destruct (read_data_returns _ _ _ _ _ H) as (Hdf & t & Ht & Hc & _).
    split; [exact Hdf|]. exists (dropna t). split; [|exact Hc].
    unfold df_clean_of. rewrite Ht. reflexivity.
Qed.

Lemma calls_leave_frames_unchanged_witness :
  nth_error (heap (snd (Statistics 0%nat country_list indicator_list 1 (world_of climate))))
            0%nat = Some climate
  /\ nth_error (heap (snd (correlations 0%nat country_list indicator_list 0 "coolwarm"
                             (world_of steady))))
               0%nat = Some steady
  /\ (nth_error (heap (snd (read_data climate (world_of climate)))) 1%nat = Some climate
      /\ exists t, df_clean_of climate = Ok t
                   /\ nth_error (heap (snd (read_data climate (world_of climate)))) 7%nat
                      = Some t).
Proof.
  destruct calls_leave_frames_unchanged as (_ & _ & _ & _ & HS & _ & HC & HR).
  split; [|split].
  - apply (proj1 (HS (world_of climate) 0%nat climate country_list indicator_list 1
                      eq_refl)).
  - apply (proj1 (HC (world_of steady) 0%nat steady country_list indicator_list 0
                      "coolwarm" eq_refl)).
  - apply (HR climate (world_of climate) 1%nat 7%nat). reflexivity.
Defined.

(** C9. Filtering with countries that do not occur in the data does not
    fail and yields an empty result: when the table has its Country Name
    and Indicator Name columns, the index names an indicator and none of
    the selected countries is in the Country Name column, both masks of
    lines 50-52 are applied without an exception and the subsets have no
    row, every column being kept and empty. *)
Theorem absent_country_empty (df : DataFrame) (cl il : list string) (idx : Z)
  (cn ind : list value) (sel : string) :
  getitem df "Country Name" = Ok cn ->
  getitem df "Indicator Name" = Ok ind ->
  py_index il idx = Ok sel ->
  (forall c, In c cl -> ~ In (Str c) cn) ->
  exists s p,
    df_sub_of df cl il = Ok s /\ df_pop_of df cl il idx = Ok p
    /\ nrows s = 0%nat /\ nrows p = 0%nat
    /\ rows s = [] /\ rows p = []
    /\ labels p = labels df
    /\ Forall (fun c => snd c = []) (columns p).
Proof.
  intros Hc Hi Hs Habs.
  destruct (df_pop_of_defined df cl il idx cn ind sel Hc Hi Hs) as [Hsub Hpop].
  set (m := band (map (isin1 cl) cn) (map (isin1 il) ind)) in *.
  assert (Hm : forallb negb m = true)
    by (apply band_false_l, absent_not_isin; assumption).
  do 2 eexists. split; [exact Hsub|]. split; [exact Hpop|].
  assert (Hidx : select m (index df) = []) by (apply select_all_false; assumption).
  unfold rows, nrows, getitem_mask; simpl. rewrite Hidx, select_nil. simpl.
  repeat split.
  - unfold labels; simpl. rewrite !map_map. reflexivity.
  - rewrite Forall_forall. intros c Hin.
    apply in_map_iff in Hin as (c' & <- & Hin'). simpl.
    apply in_map_iff in Hin' as (c'' & <- & _). simpl.
    rewrite !(select_all_false m _ Hm). reflexivity.
Qed.

Lemma absent_country_empty_witness :
  exists s p,
    df_sub_of climate ["Atlantis"] indicator_list = Ok s
    /\ df_pop_of climate ["Atlantis"] indicator_list 1 = Ok p
    /\ nrows s = 0%nat /\ nrows p = 0%nat
    /\ rows s = [] /\ rows p = []
    /\ labels p = labels climate
    /\ Forall (fun c => snd c = []) (columns p).
Proof.
  eapply (absent_country_empty climate ["Atlantis"] indicator_list 1).
  - reflexivity.
  - reflexivity.
  - reflexivity.
  - intros c [<-|[]] H. simpl in H.
    repeat (destruct H as [H|H]; [discriminate H|]). exact H.
Defined.

(** C10.  The slices never raise and are clamped.  For every cleaned
    subset of fewer than eight columns, lines 60-63 and 143 build their
    frame without an exception; the slice [-8:-2] starts at the first
    column and keeps the first [n - 2] columns, fewer than six; the slice
    [-6:] keeps the last [min(n, 6)] columns; and either window holds
    fewer than six year columns.  The window can be empty (table
    [ids_only]) and can hold identifier columns such as Country Code
    (table [two_years]). *)
Theorem windows_clamped :
  (forall df cl il idx p1,
      df_pop1_of df cl il idx = Ok p1 -> (ncols p1 < 8)%nat ->
      (exists c0,
          bar_df_new df cl il idx = Ok (concat c0 (bar_window idx p1))
          /\ line_df_new df cl il idx = Ok (concat c0 (line_window p1)))
      /\ columns (line_window p1) = firstn (ncols p1 - 2) (columns p1)
      /\ columns (bar_window idx p1)
         = (if idx =? 1 then skipn (ncols p1 - 6) (columns p1)
            else firstn (ncols p1 - 2) (columns p1))
      /\ (ncols (line_window p1) < 6)%nat
      /\ (ncols (bar_window idx p1) <= 6)%nat
      /\ (length (year_columns (columns (line_window p1))) < 6)%nat
      /\ (length (year_columns (columns (bar_window idx p1))) < 6)%nat)
  /\ (exists p1, df_pop1_of ids_only ["India"] [CO2] 0 = Ok p1
                 /\ columns (line_window p1) = []
                 /\ columns (bar_window 0 p1) = [])
  /\ (exists p1, df_pop1_of two_years ["India"] [CO2] 0 = Ok p1
                 /\ labels (line_window p1)
                    = map Str ["Country Name"; "Country Code";
                               "Indicator Name"; "Indicator Code"]).
Proof.
  split; [|split].
  - intros df cl il idx p1 H Hn.
    pose proof (df_pop1_of_years _ _ _ _ _ H) as Hy.
    assert (Hline : columns (line_window p1) = firstn (ncols p1 - 2) (columns p1))
      by (apply py_slice_8_2_short; exact Hn).
    assert (Hbar : columns (bar_window idx p1)
                   = (if idx =? 1 then skipn (ncols p1 - 6) (columns p1)
                      else firstn (ncols p1 - 2) (columns p1))).
    { unfold bar_window. destruct (idx =? 1); cbn [iloc_cols columns].
      - apply py_slice_last6.
      - apply py_slice_8_2_short; exact Hn. }
    split; [|split; [exact Hline | split; [exact Hbar|]]].
    + destruct (df_pop1_of_ids _ _ _ _ _ H) as [(c & Hin & _) _].
      destruct (columns p1) as [|c0 rest] eqn:Ec; [destruct Hin|].
      exists c0. unfold bar_df_new, line_df_new. rewrite H. cbn [rbind].
      unfold iloc_col0. rewrite Ec. split; reflexivity.
    + assert (Hyl : (length (year_columns (columns (line_window p1)))
                     <= length (year_columns (columns p1)))%nat)
        by apply year_columns_sub.
      assert (Hyb : (length (year_columns (columns (bar_window idx p1)))
                     <= length (year_columns (columns p1)))%nat)
        by (unfold bar_window; destruct (idx =? 1); apply year_columns_sub).
      unfold ncols in *.
      split; [|split; [|split]]; try lia.
      * rewrite Hline, length_firstn. lia.
      * rewrite Hbar.
        destruct (idx =? 1); [rewrite length_skipn | rewrite length_firstn]; lia.
  - eexists. split; [reflexivity|]. split; reflexivity.
  - eexists. split; [reflexivity|]. reflexivity.
Qed.

Lemma windows_clamped_witness :
  df_pop1_of two_years country_list indicator_list 1 = Ok two_years_pop1
  /\ (exists c0,
        bar_df_new two_years country_list indicator_list 1
        = Ok (concat c0 (bar_window 1 two_years_pop1))
        /\ line_df_new two_years country_list indicator_list 1
           = Ok (concat c0 (line_window two_years_pop1)))
  /\ columns (line_window two_years_pop1)
     = firstn (ncols two_years_pop1 - 2) (columns two_years_pop1)
  /\ columns (bar_window 1 two_years_pop1)
     = skipn (ncols two_years_pop1 - 6) (columns two_years_pop1)
  /\ (ncols (line_window two_years_pop1) < 6)%nat
  /\ (ncols (bar_window 1 two_years_pop1) <= 6)%nat
  /\ (length (year_columns (columns (line_window two_years_pop1))) < 6)%nat
  /\ (length (year_columns (columns (bar_window 1 two_years_pop1))) < 6)%nat.
Proof.
  split; [reflexivity|].
  apply (proj1 windows_clamped two_years country_list indicator_list 1 two_years_pop1).
  - reflexivity.
  - vm_compute. lia.
Defined.

(** * Further properties of the script *)

(** ** Failing calls *)

Lemma lookup_col_missing (name : value) (cs : list column) :
  existsb (has_label name) cs = false <-> lookup_col name cs = Raise KeyError.
Proof.
  induction cs as [|c cs IH]; simpl.
  - tauto.
  - unfold has_label at 1. destruct (label_eqb (fst c) name); simpl.
    + split; discriminate.
    + exact IH.
Qed.

Lemma py_index_out {A} (l : list A) (i : Z) :
  ~ (- Z.of_nat (length l) <= i < Z.of_nat (length l)) ->
  py_index l i = Raise IndexError.
Proof.
  intros H. unfold py_index.
  destruct (i <? 0) eqn:Ei; destruct (_ && _) eqn:E; try reflexivity;
    apply andb_prop in E as [E1 E2]; exfalso; apply H; lia.
Qed.

(** X1.  A table without a Country Name or an Indicator Name column makes
    each of the three plotting functions raise KeyError at its first
    line: no frame is built and nothing is printed or drawn. *)
Theorem missing_column_raises (w : world) (r : ref) (d : DataFrame)
  (cl il : list string) (idx : Z) (cmap : string) :
  nth_error (heap w) r = Some d ->
  existsb (has_label (Str "Country Name")) (columns d) = false
  \/ existsb (has_label (Str "Indicator Name")) (columns d) = false ->
  Statistics r cl il idx w = (Raise KeyError, w)
  /\ Statistics_line r cl il idx w = (Raise KeyError, w)
  /\ correlations r cl il idx cmap w = (Raise KeyError, w).
Proof.
  intros Hr H.
  assert (Hget : getitem d "Country Name" = Raise KeyError
                 \/ (exists cn, getitem d "Country Name" = Ok cn)
                    /\ getitem d "Indicator Name" = Raise KeyError).
  { unfold getitem. destruct H as [H|H].
    - left. apply lookup_col_missing. exact H.
    - destruct (lookup_col (Str "Country Name") (columns d)) as [cn|e] eqn:E.
      + right. split; [eauto|]. apply lookup_col_missing. exact H.
      + left. f_equal.
        destruct (existsb (has_label (Str "Country Name")) (columns d)) eqn:Ex.
        * exfalso. clear H. induction (columns d) as [|c cs IH]; simpl in *; [discriminate|].
          unfold has_label in Ex at 1. destruct (label_eqb (fst c) (Str "Country Name"));
            [discriminate|]. simpl in Ex. auto.
        * apply lookup_col_missing in Ex. congruence. }
  unfold Statistics, Statistics_line, correlations.
  destruct Hget as [Hc|[[cn Hc] Hi]].
  - repeat split; run_step; rewrite Hc; run_step; reflexivity.
  - repeat split; run_step; rewrite Hc; run_step; rewrite Hi; run_step; reflexivity.
Qed.

Lemma missing_column_raises_witness :
  Statistics 0%nat country_list indicator_list 1 (world_of no_country)
  = (Raise KeyError, world_of no_country)
  /\ Statistics_line 0%nat country_list indicator_list 1 (world_of no_country)
     = (Raise KeyError, world_of no_country)
  /\ correlations 0%nat country_list indicator_list 1 "coolwarm" (world_of no_country)
     = (Raise KeyError, world_of no_country).
Proof.
  apply (missing_column_raises (world_of no_country) 0%nat no_country).
  - reflexivity.
  - left. reflexivity.
Defined.

(** X2.  An index outside the list makes the calls raise IndexError once
    the first mask has been applied.  [Statistics] and [Statistics_line]
    have then built the subset of the selected countries and indicators
    and printed nothing; [correlations], which prints the summary of that
    subset before it reads [country_list[index]], has printed it. *)
Theorem index_out_of_range_raises (w : world) (r : ref) (d : DataFrame)
  (cl il : list string) (idx : Z) (cmap : string) (s : DataFrame) :
  nth_error (heap w) r = Some d ->
  df_sub_of d cl il = Ok s ->
  (~ (- Z.of_nat (length il) <= idx < Z.of_nat (length il)) ->
     Statistics r cl il idx w
     = (Raise IndexError, {| heap := heap w ++ [s]; out := out w |})
     /\ Statistics_line r cl il idx w
        = (Raise IndexError, {| heap := heap w ++ [s]; out := out w |}))
  /\ (~ (- Z.of_nat (length cl) <= idx < Z.of_nat (length cl)) ->
        correlations r cl il idx cmap w
        = (Raise IndexError, {| heap := heap w ++ [s]; out := out w ++ [Describe s] |})).
Proof.
  intros Hr Hs. unfold df_sub_of in Hs.
  destruct (getitem d "Country Name") as [cn|] eqn:Ec; [|discriminate].
  destruct (getitem d "Indicator Name") as [ind|] eqn:Ei; [|discriminate].
  cbn [rbind] in Hs. injection Hs as <-.
  split.
  - intros Hout. pose proof (py_index_out il idx Hout) as Hpy.
    unfold Statistics, Statistics_line.
    split.
    + run_step. rewrite Ec. run_step. rewrite Ei. do 3 run_step.
      rewrite getitem_getitem_mask, Ei. cbn [rmap]. run_step.
      rewrite Hpy. run_step. reflexivity.
    + run_step. rewrite Ec. run_step. rewrite Ei. do 3 run_step.
      rewrite getitem_getitem_mask, Ei. cbn [rmap]. run_step.
      rewrite Hpy. run_step. reflexivity.
  - intros Hout. pose proof (py_index_out cl idx Hout) as Hpy.
    unfold correlations.
    run_step. rewrite Ec. run_step. rewrite Ei. do 4 run_step.
    rewrite getitem_getitem_mask, Ec. cbn [rmap]. run_step.
    rewrite Hpy. run_step. reflexivity.
Qed.

Lemma index_out_of_range_raises_witness :
  exists s,
    df_sub_of climate country_list indicator_list = Ok s
    /\ Statistics 0%nat country_list indicator_list 6 (world_of climate)
       = (Raise IndexError, {| heap := [climate; s]; out := [] |})
    /\ correlations 0%nat country_list indicator_list (-7) "viridis" (world_of climate)
       = (Raise IndexError, {| heap := [climate; s]; out := [Describe s] |}).
Proof.
  eexists. split; [reflexivity|].
  match goal with
  | |- _ = (_, {| heap := [_; ?s]; out := _ |}) /\ _ =>
      destruct (index_out_of_range_raises (world_of climate) 0%nat climate
                  country_list indicator_list 6 "viridis" s eq_refl eq_refl)
        as [H1 _];
      destruct (index_out_of_range_raises (world_of climate) 0%nat climate
                  country_list indicator_list (-7) "viridis" s eq_refl eq_refl)
        as [_ H2]
  end.
  split.
  - apply H1. simpl. lia.
  - apply H2. simpl. lia.
Defined.

(** ** Negative indices *)

Lemma py_index_negative {A} (l : list A) (i : Z) :
  0 <= i < Z.of_nat (length l) ->
  py_index l (i - Z.of_nat (length l)) = py_index l i.
Proof.
  intros H. unfold py_index.
  destruct (Z.ltb_spec (i - Z.of_nat (length l)) 0); [|lia].
  destruct (Z.ltb_spec i 0); [lia|].
  replace (i - Z.of_nat (length l) + Z.of_nat (length l)) with i by lia.
  reflexivity.
Qed.

(** X3.  A negative index counts from the end of the indicator list, as
    Python indexing does: [Statistics_line] with [i - len] shows what it
    shows with [i], and so does [Statistics] for every [i] other than 1.
    The window test of [Statistics] compares the index itself with 1, so
    [1 - len] selects the second indicator like 1 does but cuts the
    window [-8:-2] of the line chart instead of the last six columns. *)
Theorem negative_index_counts_from_end (df : DataFrame) (cl il : list string) (i : Z) :
  0 <= i < Z.of_nat (length il) ->
  df_pop1_of df cl il (i - Z.of_nat (length il)) = df_pop1_of df cl il i
  /\ line_plot_of df cl il (i - Z.of_nat (length il)) = line_plot_of df cl il i
  /\ (forall r w, Statistics_line r cl il (i - Z.of_nat (length il)) w
                  = Statistics_line r cl il i w)
  /\ (i <> 1 ->
        bar_plot_of df cl il (i - Z.of_nat (length il)) = bar_plot_of df cl il i
        /\ forall r w, Statistics r cl il (i - Z.of_nat (length il)) w
                       = Statistics r cl il i w)
  /\ (i = 1 ->
        bar_df_new df cl il (i - Z.of_nat (length il)) = line_df_new df cl il i).
Proof.
  intros H. pose proof (py_index_negative il i H) as Hpy.
  assert (Hp1 : df_pop1_of df cl il (i - Z.of_nat (length il)) = df_pop1_of df cl il i)
    by (unfold df_pop1_of, df_pop_of; rewrite Hpy; reflexivity).
  assert (Hne : (i - Z.of_nat (length il) =? 1) = false) by (apply Z.eqb_neq; lia).
  split; [exact Hp1|]. split; [|split; [|split]].
  - unfold line_plot_of, line_df_new. rewrite Hp1, Hpy. reflexivity.
  - intros r w. unfold Statistics_line. rewrite Hpy. reflexivity.
  - intros Hi. assert (Hi' : (i =? 1) = false) by (apply Z.eqb_neq; exact Hi).
    split.
    + unfold bar_plot_of, bar_df_new, bar_window. rewrite Hp1, Hpy, Hne, Hi'. reflexivity.
    + intros r w. unfold Statistics. rewrite Hpy, Hne, Hi'. reflexivity.
  - intros ->. unfold bar_df_new, line_df_new, bar_window, line_window.
    rewrite Hp1, Hne. reflexivity.
Qed.

Lemma negative_index_counts_from_end_witness :
  df_pop1_of climate country_list indicator_list (-5)
  = df_pop1_of climate country_list indicator_list 1
  /\ bar_df_new climate country_list indicator_list (-5)
     = line_df_new climate country_list indicator_list 1
  /\ bar_df_new climate country_list indicator_list (-5)
     <> bar_df_new climate country_list indicator_list 1.
Proof.
  destruct (negative_index_counts_from_end climate country_list indicator_list 1)
    as (H1 & _ & _ & _ & H5).
  - simpl. lia.
  - split; [exact H1|]. split; [exact (H5 eq_refl)|].
    vm_compute. discriminate.
Defined.

(** ** [read_data] on tables that are too narrow *)

Lemma drop_index_short (f : DataFrame) (k : nat) :
  index f = range_index k -> (k < 4)%nat ->
  drop_index [Int 0; Int 1; Int 2; Int 3] f = Raise KeyError.
Proof.
  intros Hi Hk. unfold drop_index. rewrite Hi.
  destruct k as [|[|[|[|k]]]]; try lia; reflexivity.
Qed.

Lemma set_columns_first_row (f : DataFrame) :
  set_columns (iloc_row 0 f) f
  = Ok {| index := index f;
          columns := map (fun lc => (fst lc, snd (snd lc)))
                         (combine (iloc_row 0 f) (columns f)) |}.
Proof.
  unfold set_columns. rewrite iloc_row_length, Nat.eqb_refl. reflexivity.
Qed.

(** X4.  [read_data] needs the four identifier columns it drops.  On a
    table under a [RangeIndex] with no column at all the header row does
    not exist and the call raises IndexError; with one to three columns
    [drop(index=[0, 1, 2, 3])] does not find its labels and the call
    raises KeyError.  Either way nothing is printed and the table read
    is left as it was. *)
Theorem read_data_narrow_table (csv : DataFrame) (w : world) :
  index csv = range_index (nrows csv) ->
  (ncols csv = 0%nat ->
     df_clean_of csv = Raise IndexError
     /\ exists w', read_data csv w = (Raise IndexError, w')
                   /\ out w' = out w
                   /\ nth_error (heap w') (length (heap w)) = Some csv)
  /\ ((1 <= ncols csv < 4)%nat ->
        df_clean_of csv = Raise KeyError
        /\ exists w', read_data csv w = (Raise KeyError, w')
                      /\ out w' = out w
                      /\ nth_error (heap w') (length (heap w)) = Some csv).
Proof.
  intros Hi.
  pose proof (reset_index_transpose csv Hi) as Hreset.
  split.
  - intros H0. rewrite H0 in Hreset.
    split.
    + unfold df_clean_of, df_transpose_of. rewrite Hreset. reflexivity.
    + unfold read_data. do 4 run_step. rewrite Hreset. do 3 run_step.
      cbn [iloc0 range_index seq map index].
      eexists. split; [reflexivity|]. cbn [heap out]. split; [reflexivity|].
      rewrite <- !app_assoc. rewrite <- (Nat.add_0_r (length (heap w))).
      rewrite nth_error_appended. reflexivity.
  - intros Hk.
    set (t1 := {| index := range_index (ncols csv);
                  columns := (Str "index", labels csv)
                             :: map (fun il : nat * value => (snd il, iloc_row (fst il) csv))
                                    (enumerate (index csv)) |}) in *.
    assert (H0 : iloc0 t1 = Ok (iloc_row 0 t1)).
    { unfold iloc0, t1. cbn [index].
      destruct (ncols csv) as [|k]; [lia|]. reflexivity. }
    assert (Hdrop : forall cs, drop_index [Int 0; Int 1; Int 2; Int 3]
                                 {| index := index t1; columns := cs |}
                               = Raise KeyError).
    { intros cs. apply (drop_index_short _ (ncols csv)); [reflexivity | lia]. }
    split.
    + unfold df_clean_of, df_transpose_of. rewrite Hreset. cbn [rbind].
      rewrite H0. cbn [rbind]. rewrite set_columns_first_row. cbn [rbind].
      rewrite Hdrop. reflexivity.
    + unfold read_data. do 4 run_step. rewrite Hreset. do 3 run_step.
      rewrite H0. run_step. rewrite set_columns_first_row. do 3 run_step.
      rewrite Hdrop. run_step.
      eexists. split; [reflexivity|]. cbn [heap out]. split; [reflexivity|].
      rewrite <- !app_assoc. rewrite <- (Nat.add_0_r (length (heap w))).
      rewrite nth_error_appended. reflexivity.
Qed.

Lemma read_data_narrow_table_witness :
  (df_clean_of no_columns = Raise IndexError
   /\ exists w', read_data no_columns (world_of climate) = (Raise IndexError, w')
                 /\ out w' = out (world_of climate)
                 /\ nth_error (heap w') (length (heap (world_of climate)))
                    = Some no_columns)
  /\ (df_clean_of ids_only = Raise KeyError
      /\ exists w', read_data ids_only (world_of climate) = (Raise KeyError, w')
                    /\ out w' = out (world_of climate)
                    /\ nth_error (heap w') (length (heap (world_of climate)))
                       = Some ids_only).
Proof.
  split.
  - apply (read_data_narrow_table no_columns (world_of climate)); reflexivity.
  - apply (read_data_narrow_table ids_only (world_of climate)).
    + reflexivity.
    + vm_compute. lia.
Defined.

(** ** The columns of the cleaned table *)

Lemma year_columns_of_rows (csv : DataFrame) (l : list value) (k : nat) :
  map (fun jl => (snd jl, map (fun r => nth (fst jl) r NaN)
                              (skipn 4 (transposed_rows csv))))
      (combine (seq (S k) (length l)) (map (rename_label "Country Name" "Year") l))
  = map (fun i => (rename_label "Country Name" "Year" (nth (i - k) l NaN),
                   skipn 4 (iloc_row i csv)))
        (seq k (length l)).
Proof.
  revert k; induction l as [|x l IH]; intros k; [reflexivity|].
  cbn [length seq map combine fst snd].
  rewrite body_column, Nat.sub_diag. cbn [nth]. f_equal.
  rewrite IH. apply map_ext_in. intros i Hi. apply in_seq in Hi.
  replace (i - k)%nat with (S (i - S k)) by lia. reflexivity.
Qed.

Lemma transposed_by_rows (csv : DataFrame) :
  raw_table csv -> (4 <= ncols csv)%nat ->
  df_transpose_of csv
  = Ok {| index := range_index (ncols csv - 4);
          columns :=
            (rename_label "Country Name" "Year" (hd NaN (labels csv)),
             skipn 4 (labels csv))
            :: map (fun r => (rename_label "Country Name" "Year" (hd NaN r), skipn 4 r))
                   (rows csv) |}.
Proof.
  intros Hraw H4. rewrite (df_transpose_of_steps csv Hraw H4).
  destruct Hraw as [Hwf Hi].
  destruct (columns csv) as [|c0 rest] eqn:Ec;
    [unfold ncols in H4; rewrite Ec in H4; simpl in H4; lia|].
  assert (Hlen : length (snd c0) = nrows csv).
  { unfold wf in Hwf. rewrite Ec in Hwf. inversion Hwf; subst. assumption. }
  assert (Hhd : hd [] (transposed_rows csv) = fst c0 :: snd c0)
    by (unfold transposed_rows; rewrite Ec; reflexivity).
  unfold frame_of_rows. rewrite Hhd. f_equal. f_equal.
  - f_equal. rewrite length_skipn. unfold transposed_rows. rewrite length_map.
    reflexivity.
  - unfold enumerate. cbn [length map seq combine fst snd].
    rewrite body_labels. f_equal.
    + unfold labels. rewrite Ec. reflexivity.
    + rewrite length_map, year_columns_of_rows.
      unfold rows. rewrite map_map, Hlen.
      apply map_ext. intros i. rewrite Nat.sub_0_r.
      unfold iloc_row at 2. rewrite Ec. reflexivity.
Qed.

(** X5.  The cleaned table of [read_data], in terms of the raw rows: it
    has one row per year column of the raw table under a fresh
    [RangeIndex]; its first column holds the labels of those year columns
    under the renamed label of the first raw column; every raw row
    becomes the column of its year cells, labelled by its first cell, and
    stays exactly when none of these cells is missing.  The table is
    rectangular. *)
Theorem cleaned_table_columns (csv : DataFrame) :
  raw_table csv -> (4 <= ncols csv)%nat ->
  exists t,
    df_clean_of csv = Ok t
    /\ index t = range_index (ncols csv - 4)
    /\ columns t
       = filter complete
           ((rename_label "Country Name" "Year" (hd NaN (labels csv)),
             skipn 4 (labels csv))
            :: map (fun r => (rename_label "Country Name" "Year" (hd NaN r), skipn 4 r))
                   (rows csv))
    /\ wf t.
Proof.
  intros Hraw H4. unfold df_clean_of.
  rewrite (transposed_by_rows csv Hraw H4). cbn [rmap].
  eexists. split; [reflexivity|]. split; [reflexivity|]. split; [reflexivity|].
  unfold wf, nrows, dropna. cbn [index columns].
  rewrite range_index_length, Forall_forall.
  intros c Hc. apply filter_In in Hc as [Hc _].
  destruct Hc as [<-|Hc].
  - cbn [snd]. rewrite length_skipn. unfold labels. rewrite length_map. reflexivity.
  - apply in_map_iff in Hc as (r & <- & Hr). cbn [snd].
    unfold rows in Hr. apply in_map_iff in Hr as (i & <- & _).
    rewrite length_skipn, iloc_row_length. reflexivity.
Qed.

Lemma cleaned_table_columns_witness :
  exists t,
    df_clean_of climate = Ok t
    /\ index t = range_index (ncols climate - 4)
    /\ columns t
       = filter complete
           ((rename_label "Country Name" "Year" (hd NaN (labels climate)),
             skipn 4 (labels climate))
            :: map (fun r => (rename_label "Country Name" "Year" (hd NaN r), skipn 4 r))
                   (rows climate))
    /\ wf t.
Proof.
  apply (cleaned_table_columns climate).
  - split; [repeat constructor | reflexivity].
  - vm_compute. lia.
Defined.

(** ** Rectangular tables *)

Lemma dropna_wf (f : DataFrame) : wf f -> wf (dropna f).
Proof.
  unfold wf, nrows, dropna; cbn [index columns]. rewrite !Forall_forall.
  intros H c Hc. apply filter_In in Hc as [Hc _]. auto.
Qed.

Lemma py_slice_In {A} (a b : option Z) (l : list A) (x : A) :
  In x (py_slice a b l) -> In x l.
Proof.
  unfold py_slice. set (i := Z.to_nat _). set (k := Z.to_nat _). intros H.
  rewrite <- (firstn_skipn k l). apply in_or_app. right.
  rewrite <- (firstn_skipn i (skipn k l)). apply in_or_app. left. exact H.
Qed.

Lemma iloc_cols_wf (a b : option Z) (f : DataFrame) : wf f -> wf (iloc_cols a b f).
Proof.
  unfold wf, nrows, iloc_cols; cbn [index columns]. rewrite !Forall_forall.
  intros H c Hc. apply H. eapply py_slice_In; eauto.
Qed.

Lemma set_index_wf (name : string) (f g : DataFrame) :
  wf f -> set_index name f = Ok g -> wf g.
Proof.
  unfold set_index, wf, nrows. intros H.
  destruct (filter (has_label (Str name)) (columns f)) as [|c [|c' l]] eqn:E;
    try discriminate.
  intros [= <-]. cbn [index columns].
  rewrite Forall_forall in *.
  assert (Hc : In c (columns f)).
  { assert (Hin : In c (filter (has_label (Str name)) (columns f)))
      by (rewrite E; left; reflexivity).
    apply filter_In in Hin. tauto. }
  intros x Hx. apply filter_In in Hx as [Hx _].
  rewrite (H x Hx), (H c Hc). reflexivity.
Qed.

Lemma drop_columns_wf (names : list string) (f g : DataFrame) :
  wf f -> drop_columns names f = Ok g -> wf g.
Proof.
  unfold drop_columns, wf, nrows. intros H.
  destruct (forallb _ names); [|discriminate].
  intros [= <-]. cbn [index columns]. rewrite Forall_forall in *.
  intros x Hx. apply filter_In in Hx as [Hx _]. auto.
Qed.

Lemma transpose_wf (f : DataFrame) : wf (transpose f).
Proof.
  unfold wf, nrows, transpose; cbn [index columns]. rewrite Forall_forall.
  intros c Hc. apply in_map_iff in Hc as (il & <- & _). cbn [snd].
  rewrite iloc_row_length. unfold ncols, labels. rewrite length_map. reflexivity.
Qed.

Lemma df_pop_of_wf (df : DataFrame) (cl il : list string) (idx : Z) (p : DataFrame) :
  wf df -> df_pop_of df cl il idx = Ok p -> wf p.
Proof.
  intros Hwf H.
  destruct (df_pop_of_rows df cl il idx p Hwf H) as (jc & ji & sel & _ & _ & _ & ->).
  apply getitem_mask_wf. exact Hwf.
Qed.

Lemma window_frame_wf (c0 : column) (a b : option Z) (p1 : DataFrame) :
  wf p1 -> iloc_col0 p1 = Ok c0 -> wf (concat c0 (iloc_cols a b p1)).
Proof.
  intros Hwf H0. pose proof (iloc_cols_wf a b p1 Hwf) as Hw.
  unfold wf, nrows, concat in *. cbn [index columns] in *.
  constructor; [|exact Hw].
  unfold iloc_col0 in H0. destruct (columns p1) as [|c cs] eqn:Ec; [discriminate|].
  injection H0 as <-. inversion Hwf; subst. assumption.
Qed.

(** X6.  Every frame the plotting functions build from a rectangular
    table is rectangular: the cleaned subset, the frames handed to the
    bar chart and to the line chart, the table of one country and its
    transpose each have one cell per row in every column. *)
Theorem frames_stay_rectangular (df : DataFrame) (cl il : list string) (idx : Z) :
  wf df ->
  (forall p1, df_pop1_of df cl il idx = Ok p1 -> wf p1)
  /\ (forall g ev, bar_plot_of df cl il idx = Ok (g, ev) -> wf g)
  /\ (forall g ev, line_plot_of df cl il idx = Ok (g, ev) -> wf g)
  /\ (forall t, df_temp_of df cl il idx = Ok t -> wf t /\ wf (transpose t)).
Proof.
  intros Hwf.
  assert (Hp1 : forall p1, df_pop1_of df cl il idx = Ok p1 -> wf p1).
  { intros p1 H. unfold df_pop1_of in H.
    destruct (df_pop_of df cl il idx) as [p|] eqn:Ep; [|discriminate].
    injection H as <-. apply dropna_wf. eapply df_pop_of_wf; eauto. }
  split; [exact Hp1|]. split; [|split].
  - intros g ev H. unfold bar_plot_of, bar_df_new in H.
    destruct (df_pop1_of df cl il idx) as [p1|] eqn:Ep1; [|discriminate].
    cbn [rbind] in H.
    destruct (iloc_col0 p1) as [c0|] eqn:E0; [|discriminate]. cbn [rbind] in H.
    destruct (set_index "Country Name" _) as [g'|] eqn:Eg; [|discriminate].
    cbn [rbind] in H.
    destruct (py_index il idx); [|discriminate]. cbn [rbind] in H.
    destruct (py_index (labels g') 0); [|discriminate]. cbn [rbind] in H.
    destruct (py_index (labels g') (-1)); [|discriminate]. cbn [rbind] in H.
    injection H as <- _.
    refine (set_index_wf _ _ _ _ Eg).
    unfold bar_window. destruct (idx =? 1);
      apply window_frame_wf; auto.
  - intros g ev H. unfold line_plot_of, line_df_new in H.
    destruct (df_pop1_of df cl il idx) as [p1|] eqn:Ep1; [|discriminate].
    cbn [rbind] in H.
    destruct (iloc_col0 p1) as [c0|] eqn:E0; [|discriminate]. cbn [rbind] in H.
    destruct (set_index "Country Name" _) as [g'|] eqn:Eg; [|discriminate].
    cbn [rbind] in H.
    destruct (py_index il idx); [|discriminate]. cbn [rbind] in H.
    injection H as <- _.
    refine (set_index_wf _ _ _ _ Eg).
    unfold line_window. apply window_frame_wf; auto.
  - intros t H. split; [|apply transpose_wf].
    unfold df_temp_of in H.
    destruct (df_sub_of df cl il) as [s|] eqn:Es; [|discriminate]. cbn [rbind] in H.
    destruct (getitem s "Country Name") as [cn|]; [|discriminate]. cbn [rbind] in H.
    destruct (py_index cl idx) as [country|]; [|discriminate]. cbn [rbind] in H.
    destruct (set_index "Indicator Name" _) as [t1|] eqn:Et1; [|discriminate].
    cbn [rbind] in H.
    refine (drop_columns_wf _ _ _ _ H).
    refine (set_index_wf _ _ _ _ Et1).
    apply dropna_wf, getitem_mask_wf.
    destruct (df_sub_of_rows df cl il s Hwf Es) as (jc & ji & _ & _ & ->).
    apply getitem_mask_wf. exact Hwf.
Qed.

Lemma frames_stay_rectangular_witness :
  wf sample_pop1
  /\ (forall g ev, line_plot_of sample_table country_list indicator_list 1 = Ok (g, ev)
                   -> wf g).
Proof.
  destruct (frames_stay_rectangular sample_table country_list indicator_list 1)
    as (H1 & _ & H3 & _).
  - repeat constructor.
  - split; [apply H1; reflexivity | exact H3].
Defined.

(** ** Transposition *)

Lemma relabel_columns (F : nat * value -> column) (l : list column) (k : nat) :
  (forall j c, nth_error l j = Some c -> F ((k + j)%nat, fst c) = c) ->
  map F (combine (seq k (length l)) (map fst l)) = l.
Proof.
  revert k; induction l as [|c l IH]; intros k H; [reflexivity|].
  cbn [length seq map combine]. f_equal.
  - pose proof (H 0%nat c eq_refl) as H0. rewrite Nat.add_0_r in H0. exact H0.
  - apply IH. intros j x Hx. pose proof (H (S j) x Hx) as HS.
    replace (k + S j)%nat with (S k + j)%nat in HS by lia. exact HS.
Qed.

Lemma transpose_row (f : DataFrame) (j : nat) :
  iloc_row j (transpose f) = map (fun r => nth j r NaN) (rows f).
Proof.
  unfold iloc_row at 1, transpose, rows; cbn [columns].
  rewrite !map_map. cbn [snd].
  transitivity (map (fun i => nth j (iloc_row i f) NaN) (map fst (enumerate (index f)))).
  - rewrite map_map. reflexivity.
  - rewrite enumerate_fst. reflexivity.
Qed.

(** X7.  Transposition, used by [read_data] and by [correlations], turns
    a rectangular table inside out and back: the rows of the transposed
    table are the columns of the table, its columns the rows, the two
    sizes change places, and transposing twice gives the table again. *)
Theorem transpose_involutive (f : DataFrame) :
  wf f ->
  transpose (transpose f) = f
  /\ rows (transpose f) = map snd (columns f)
  /\ map snd (columns (transpose f)) = rows f
  /\ nrows (transpose f) = ncols f /\ ncols (transpose f) = nrows f.
Proof.
  intros Hwf.
  assert (Hcols : forall j c, nth_error (columns f) j = Some c ->
                              iloc_row j (transpose f) = snd c).
  { intros j c Hj. rewrite transpose_row. apply column_along_rows; assumption. }
  split; [|split; [|split; [|split]]].
  - destruct f as [idx cols]. unfold transpose at 1. cbn [index columns] in *.
    f_equal.
    + apply (transpose_labels {| index := idx; columns := cols |}).
    + change (index (transpose {| index := idx; columns := cols |}))
        with (map fst cols).
      unfold enumerate. rewrite length_map.
      apply (relabel_columns _ cols 0). intros j c Hj. cbn [fst snd].
      rewrite Nat.add_0_l, (Hcols j c Hj). destruct c; reflexivity.
  - unfold rows.
    assert (Hn : nrows (transpose f) = length (columns f))
      by (unfold nrows, transpose, labels; cbn [index]; apply length_map).
    rewrite Hn.
    transitivity (map snd (map (fun i => nth i (columns f) (NaN, []))
                               (seq 0 (length (columns f)))));
      [|rewrite map_nth_seq; reflexivity].
    rewrite map_map. apply map_ext_in. intros j Hj. apply in_seq in Hj.
    destruct (nth_error (columns f) j) as [c|] eqn:E.
    + rewrite (Hcols j c E). f_equal. symmetry. apply nth_error_nth. exact E.
    + apply nth_error_None in E. lia.
  - unfold transpose, rows; cbn [columns]. rewrite map_map. cbn [snd].
    transitivity (map (fun i => iloc_row i f) (map fst (enumerate (index f)))).
    + rewrite map_map. reflexivity.
    + rewrite enumerate_fst. reflexivity.
  - unfold nrows, ncols, transpose, labels; cbn [index]. apply length_map.
  - apply transpose_ncols.
Qed.

Lemma transpose_involutive_witness :
  transpose (transpose climate) = climate
  /\ rows (transpose climate) = map snd (columns climate)
  /\ map snd (columns (transpose climate)) = rows climate
  /\ nrows (transpose climate) = ncols climate
  /\ ncols (transpose climate) = nrows climate.
Proof.
  apply (transpose_involutive climate). repeat constructor.
Defined.

(** ** Filtering what is already filtered *)

Lemma forallb_filtered {A} (p : A -> bool) (l : list A) :
  forallb p (filter p l) = true.
Proof.
  apply forallb_forall. intros x Hx. apply filter_In in Hx. tauto.
Qed.

Lemma lookup_complete (name : value) (cs : list column) (vs : list value) :
  lookup_col name cs = Ok vs -> forallb notna vs = true ->
  lookup_col name (filter complete cs) = Ok vs.
Proof.
  induction cs as [|c cs IH]; cbn [lookup_col filter]; [discriminate|].
  destruct (label_eqb (fst c) name) eqn:E.
  - intros [= <-] Hv. unfold complete at 1. rewrite Hv. cbn [lookup_col].
    rewrite E. reflexivity.
  - intros H Hv. destruct (complete c); cbn [lookup_col]; rewrite ?E; auto.
Qed.

Lemma band_all_true (a b : list bool) :
  forallb (fun x => x) a = true -> forallb (fun x => x) b = true ->
  length a = length b ->
  forallb (fun x => x) (band a b) = true /\ length (band a b) = length a.
Proof.
  revert b; induction a as [|x a IH]; intros [|y b]; cbn; try discriminate; auto.
  intros Ha Hb [= Hl].
  apply andb_prop in Ha as [-> Ha]. apply andb_prop in Hb as [-> Hb].
  destruct (IH b Ha Hb Hl) as [H1 H2]. cbn. rewrite H1, H2. auto.
Qed.

Lemma getitem_mask_all_true (m : list bool) (f : DataFrame) :
  wf f -> forallb (fun x => x) m = true -> length m = nrows f ->
  getitem_mask m f = f.
Proof.
  intros Hwf Hm Hl. destruct f as [idx cols].
  unfold getitem_mask, wf, nrows in *. cbn [index columns] in *. f_equal.
  - apply select_all_true_short; [assumption | lia].
  - rewrite <- (map_id cols) at 2. apply map_ext_in. intros [l vs] Hc.
    cbn [fst snd]. f_equal. apply select_all_true_short; [assumption|].
    rewrite Forall_forall in Hwf. specialize (Hwf _ Hc). cbn [snd] in Hwf. lia.
Qed.

Lemma lookup_length (f : DataFrame) (name : string) (vs : list value) :
  wf f -> getitem f name = Ok vs -> length vs = nrows f.
Proof.
  intros Hwf H. apply lookup_In in H as (c & Hin & _ & <-).
  unfold wf in Hwf. rewrite Forall_forall in Hwf. auto.
Qed.

(** X8.  Filtering and cleaning settle at once: the cleaned subset of a
    rectangular table, put through lines 50-57 again with the same
    countries, indicators and index, comes out as it went in. *)
Theorem filter_clean_idempotent (df : DataFrame) (cl il : list string) (idx : Z)
  (p1 : DataFrame) :
  wf df ->
  df_pop1_of df cl il idx = Ok p1 ->
  df_pop_of p1 cl il idx = Ok p1 /\ df_pop1_of p1 cl il idx = Ok p1.
Proof.
  intros Hwf H.
  assert (Hpop : df_pop_of p1 cl il idx = Ok p1).
  { unfold df_pop1_of in H.
    destruct (df_pop_of df cl il idx) as [p|] eqn:Ep; [|discriminate].
    injection H as <-.
    pose proof (df_pop_of_wf _ _ _ _ _ Hwf Ep) as Hwfp.
    destruct (df_pop_of_inv _ _ _ _ _ Ep) as (cn & ind & sel & Hc & Hi & Hs).
    destruct (df_pop_of_defined df cl il idx cn ind sel Hc Hi Hs) as [_ Hp].
    rewrite Hp in Ep. injection Ep as Ep.
    set (m1 := band (map (isin1 cl) cn) (map (isin1 il) ind)) in *.
    set (m2 := map (eq_str sel) (select m1 ind)) in *.
    assert (Hcn : getitem p "Country Name" = Ok (select m2 (select m1 cn)))
      by (rewrite <- Ep, !getitem_getitem_mask, Hc; reflexivity).
    assert (Hind : getitem p "Indicator Name" = Ok (select m2 (select m1 ind)))
      by (rewrite <- Ep, !getitem_getitem_mask, Hi; reflexivity).
    assert (Hcn_in : forallb (isin1 cl) (select m2 (select m1 cn)) = true).
    { apply forallb_select. unfold m1. apply forallb_select_band_l. auto. }
    assert (Hind_eq : forallb (eq_str sel) (select m2 (select m1 ind)) = true).
    { unfold m2. rewrite select_by_test. apply forallb_filtered. }
    assert (Hcn_na : forallb notna (select m2 (select m1 cn)) = true).
    { apply forallb_forall. intros v Hv. rewrite forallb_forall in Hcn_in.
      eapply isin1_notna; eauto. }
    assert (Hind_na : forallb notna (select m2 (select m1 ind)) = true).
    { apply forallb_forall. intros v Hv. rewrite forallb_forall in Hind_eq.
      specialize (Hind_eq v Hv). destruct v; simpl in *; auto; discriminate. }
    assert (Hcn1 : getitem (dropna p) "Country Name" = Ok (select m2 (select m1 cn)))
      by (apply lookup_complete; assumption).
    assert (Hind1 : getitem (dropna p) "Indicator Name" = Ok (select m2 (select m1 ind)))
      by (apply lookup_complete; assumption).
    set (cn' := select m2 (select m1 cn)) in *.
    set (ind' := select m2 (select m1 ind)) in *.
    pose proof (dropna_wf p Hwfp) as Hwf1.
    assert (Hlc : length cn' = nrows (dropna p)) by (eapply lookup_length; eauto).
    assert (Hli : length ind' = nrows (dropna p)) by (eapply lookup_length; eauto).
    destruct (df_pop_of_defined (dropna p) cl il idx cn' ind' sel Hcn1 Hind1 Hs)
      as [_ Hgoal].
    rewrite Hgoal.
    assert (Hb : forallb (fun x => x) (band (map (isin1 cl) cn') (map (isin1 il) ind')) = true
                 /\ length (band (map (isin1 cl) cn') (map (isin1 il) ind'))
                    = length (map (isin1 cl) cn')).
    { apply band_all_true.
      - rewrite forallb_mapped. exact Hcn_in.
      - rewrite forallb_mapped. apply forallb_forall. intros v Hv.
        rewrite forallb_forall in Hind_eq.
        apply (eq_str_isin il sel v (py_index_In _ _ _ Hs)). auto.
      - rewrite !length_map. congruence. }
    destruct Hb as [Hb1 Hb2]. rewrite length_map in Hb2.
    set (b := band (map (isin1 cl) cn') (map (isin1 il) ind')) in *.
    assert (Hsel : select b ind' = ind')
      by (apply select_all_true_short; [assumption | lia]).
    rewrite Hsel.
    rewrite (getitem_mask_all_true b (dropna p) Hwf1 Hb1) by lia.
    rewrite (getitem_mask_all_true _ (dropna p) Hwf1).
    - reflexivity.
    - rewrite forallb_mapped. exact Hind_eq.
    - rewrite length_map. exact Hli. }
  split; [exact Hpop|].
  unfold df_pop1_of. rewrite Hpop. cbn [rmap]. f_equal.
  unfold df_pop1_of in H. destruct (df_pop_of df cl il idx); [|discriminate].
  injection H as <-. apply dropna_idem.
Qed.

Lemma filter_clean_idempotent_witness :
  df_pop_of climate_pop1 country_list indicator_list 1 = Ok climate_pop1
  /\ df_pop1_of climate_pop1 country_list indicator_list 1 = Ok climate_pop1.
Proof.
  apply (filter_clean_idempotent climate country_list indicator_list 1 climate_pop1).
  - repeat constructor.
  - reflexivity.
Defined.

(** ** The whole script *)

Lemma bind_assoc_run {A B C} (m : M A) (k1 : A -> M B) (k2 : B -> M C) (w : world) :
  bind (bind m k1) k2 w = bind m (fun a => bind (k1 a) k2) w.
Proof.
  unfold bind. destruct (m w) as [[a|e] w']; reflexivity.
Qed.

Ltac keeps_calls :=
  repeat lazymatch goal with
         | |- keeps _ (Statistics _ _ _ _) => apply Statistics_keeps
         | |- keeps _ (Statistics_line _ _ _ _) => apply Statistics_line_keeps
         | |- keeps _ (correlations _ _ _ _ _) => apply correlations_keeps
         | |- keeps _ (read_data _) => apply read_data_keeps
         | |- keeps _ (bind (new _) _) => apply keeps_bind_new; intros ? ?
         | |- keeps _ (bind _ _) => apply keeps_bind; [|intros ?]
         | |- keeps _ (deref _) => apply keeps_deref
         | |- keeps _ (lift _) => apply keeps_lift
         | |- keeps _ (emit _) => apply keeps_emit
         | |- keeps _ (ret _) => apply keeps_ret
         | |- keeps _ (assign _ _) => apply keeps_assign; assumption
         | |- keeps _ _ => progress cbv beta zeta
         end.

(** X9.  [main] changes no frame it did not build, whether its calls
    return or raise, and the table it reads stays as read to the end:
    after [main] the first object it created still holds the table of
    the file, whatever the six plotting calls did. *)
Theorem main_keeps_the_table (csv : DataFrame) (w : world) :
  unchanged w (snd (main csv w))
  /\ nth_error (heap (snd (main csv w))) (length (heap w)) = Some csv.
Proof.
  split.
  - apply keeps_unchanged. unfold main. keeps_calls.
  - unfold main, read_data. rewrite bind_assoc_run, bind_new.
    set (w1 := {| heap := heap w ++ [csv]; out := out w |}).
    match goal with
    | |- nth_error (heap (snd (?m w1))) _ = _ =>
        assert (Hk : keeps (S (length (heap w))) m) by keeps_calls;
        destruct (Hk w1) as [Hlen Hfirst];
        [unfold w1; cbn [heap]; rewrite length_app; simpl; lia|];
        rewrite <- (firstn_skipn (S (length (heap w))) (heap (snd (m w1)))), Hfirst
    end.
    unfold w1. cbn [heap].
    rewrite firstn_all2 by (rewrite length_app; simpl; lia).
    rewrite nth_error_app1 by (rewrite length_app; simpl; lia).
    apply nth_error_snoc.
Qed.

(** ** Columns that survive on a subset *)

Lemma filter_length_mapped {A B} (p : A -> bool) (q : B -> bool) (g : A -> B)
  (l : list A) :
  (forall x, p x = true -> q (g x) = true) ->
  (length (filter p l) <= length (filter q (map g l)))%nat.
Proof.
  intros H. induction l as [|x l IH]; simpl; [lia|].
  destruct (p x) eqn:E.
  - rewrite (H x E). simpl. lia.
  - destruct (q (g x)); simpl; lia.
Qed.

Lemma filter_length_le {A} (p : A -> bool) (l : list A) :
  (length (filter p l) <= length l)%nat.
Proof.
  induction l as [|x l IH]; simpl; [lia|]. destruct (p x); simpl; lia.
Qed.

Lemma select_length_bound {A} (m : list bool) (l : list A) :
  (length (select m l) <= length l)%nat.
Proof.
  revert l; induction m as [|b m IH]; intros [|x l]; simpl; try lia.
  destruct b; simpl; specialize (IH l); lia.
Qed.

(** X10.  Narrowing the rows never costs a column: a column that has no
    missing value in the whole table is still there, under its label, in
    the cleaned subset of any selection, so the subset has at least the
    columns the cleaned whole table has, and no more rows than the table. *)
Theorem subset_keeps_complete_columns (df : DataFrame) (cl il : list string)
  (idx : Z) (p1 : DataFrame) :
  df_pop1_of df cl il idx = Ok p1 ->
  (forall c, In c (columns (dropna df)) -> exists vs, In (fst c, vs) (columns p1))
  /\ (ncols (dropna df) <= ncols p1 <= ncols df)%nat
  /\ (nrows p1 <= nrows df)%nat.
Proof.
  unfold df_pop1_of. intros H.
  destruct (df_pop_of df cl il idx) as [p|] eqn:Ep; [|discriminate].
  injection H as <-.
  destruct (df_pop_of_inv _ _ _ _ _ Ep) as (cn & ind & sel & Hc & Hi & Hs).
  destruct (df_pop_of_defined df cl il idx cn ind sel Hc Hi Hs) as [_ Hp].
  rewrite Hp in Ep. injection Ep as <-.
  set (m1 := band (map (isin1 cl) cn) (map (isin1 il) ind)).
  set (m2 := map (eq_str sel) (select m1 ind)).
  assert (Hcols : columns (dropna (getitem_mask m2 (getitem_mask m1 df)))
                  = filter complete
                      (map (fun c => (fst c, select m2 (select m1 (snd c)))) (columns df))).
  { unfold dropna, getitem_mask; cbn [columns]. rewrite map_map. reflexivity. }
  assert (Hkeep : forall c : column,
             complete c = true ->
             complete (fst c, select m2 (select m1 (snd c))) = true).
  { intros c Hcomp. unfold complete in *. cbn [snd]. do 2 apply forallb_select.
    exact Hcomp. }
  split; [|split].
  - intros c Hin. apply dropna_complete in Hin as [Hin Hcomp].
    exists (select m2 (select m1 (snd c))). rewrite Hcols.
    apply filter_In. split; [|apply Hkeep; exact Hcomp].
    apply in_map_iff. exists c. auto.
  - unfold ncols. rewrite Hcols. split.
    + unfold dropna; cbn [columns]. apply filter_length_mapped. exact Hkeep.
    + etransitivity; [apply filter_length_le|]. rewrite length_map. apply Nat.le_refl.
  - unfold nrows, dropna, getitem_mask; cbn [index].
    etransitivity; [apply select_length_bound|]. apply select_length_bound.
Qed.

Lemma subset_keeps_complete_columns_witness :
  (forall c, In c (columns (dropna climate)) ->
             exists vs, In (fst c, vs) (columns climate_pop1))
  /\ (ncols (dropna climate) <= ncols climate_pop1 <= ncols climate)%nat
  /\ (nrows climate_pop1 <= nrows climate)%nat.
Proof.
  apply (subset_keeps_complete_columns climate country_list indicator_list 1).
  reflexivity.
Defined.

(** ** What the charts show *)













(** ** What [correlations] asks of the table *)

Lemma existsb_labels (name : value) (l l' : list column) :
  (forall x, In x l' -> exists y, In y l /\ fst y = fst x) ->
  existsb (has_label name) l = false -> existsb (has_label name) l' = false.
Proof.
  intros Hsub H. destruct (existsb (has_label name) l') eqn:E; [|reflexivity].
  apply existsb_exists in E as (x & Hx & Hp).
  destruct (Hsub x Hx) as (y & Hy & Hf).
  assert (Ht : existsb (has_label name) l = true).
  { apply existsb_exists. exists y. split; [exact Hy|].
    unfold has_label in *. rewrite Hf. exact Hp. }
  congruence.
Qed.

Lemma set_index_labels (name : string) (f g : DataFrame) (x : column) :
  set_index name f = Ok g -> In x (columns g) -> In x (columns f).
Proof.
  unfold set_index.
  destruct (filter (has_label (Str name)) (columns f)) as [|c [|c' l]];
    try discriminate.
  intros [= <-]. cbn [columns]. intros H. apply filter_In in H. tauto.
Qed.

(** X12.  [correlations] drops the Country Code and Indicator Code
    columns by name, so it needs them: on a table without one of them
    the table of the country is never built and no heatmap is drawn, and
    when everything before line 103 went through the exception is
    KeyError. *)
Theorem correlations_needs_code_columns (d : DataFrame) (cl il : list string)
  (idx : Z) (cmap : string) :
  existsb (has_label (Str "Country Code")) (columns d) = false
  \/ existsb (has_label (Str "Indicator Code")) (columns d) = false ->
  (forall t, df_temp_of d cl il idx <> Ok t)
  /\ (forall s cn country t1,
        df_sub_of d cl il = Ok s ->
        getitem s "Country Name" = Ok cn ->
        py_index cl idx = Ok country ->
        set_index "Indicator Name" (dropna (getitem_mask (map (eq_str country) cn) s))
        = Ok t1 ->
        df_temp_of d cl il idx = Raise KeyError)
  /\ (forall w r, nth_error (heap w) r = Some d ->
                  fst (correlations r cl il idx cmap w) <> Ok tt).
Proof.
  intros Hmiss.
  assert (Hdrop : forall s cn country t1,
             df_sub_of d cl il = Ok s ->
             set_index "Indicator Name" (dropna (getitem_mask (map (eq_str country) cn) s))
             = Ok t1 ->
             drop_columns ["Country Name"; "Country Code"; "Indicator Code"] t1
             = Raise KeyError).
  { intros s cn country t1 Hs Ht1.
    assert (Hsub : forall x, In x (columns t1) -> exists y, In y (columns d) /\ fst y = fst x).
    { intros x Hx. apply (set_index_labels _ _ _ _ Ht1) in Hx.
      apply dropna_complete in Hx as [Hx _].
      unfold getitem_mask in Hx; cbn [columns] in Hx.
      apply in_map_iff in Hx as (y & <- & Hy). cbn [fst].
      unfold df_sub_of in Hs.
      destruct (getitem d "Country Name"); [|discriminate].
      destruct (getitem d "Indicator Name"); [|discriminate].
      cbn [rbind] in Hs. injection Hs as <-.
      unfold getitem_mask in Hy; cbn [columns] in Hy.
      apply in_map_iff in Hy as (z & <- & Hz). exists z. auto. }
    unfold drop_columns. cbn [forallb].
    destruct Hmiss as [H|H];
      rewrite (existsb_labels _ _ _ Hsub H); rewrite ?andb_false_r; reflexivity. }
  assert (Hnever : forall t, df_temp_of d cl il idx <> Ok t).
  { intros t H. unfold df_temp_of in H.
    destruct (df_sub_of d cl il) as [s|] eqn:Es; [|discriminate]. cbn [rbind] in H.
    destruct (getitem s "Country Name") as [cn|]; [|discriminate]. cbn [rbind] in H.
    destruct (py_index cl idx) as [country|]; [|discriminate]. cbn [rbind] in H.
    destruct (set_index "Indicator Name" _) as [t1|] eqn:Et1; [|discriminate].
    cbn [rbind] in H. rewrite (Hdrop s cn country t1 eq_refl Et1) in H. discriminate. }
  split; [exact Hnever|]. split.
  - intros s cn country t1 Hs Hcn Hc Ht1. unfold df_temp_of.
    rewrite Hs. cbn [rbind]. rewrite Hcn. cbn [rbind]. rewrite Hc. cbn [rbind].
    rewrite Ht1. cbn [rbind]. apply (Hdrop s cn country t1 Hs Ht1).
  - intros w r Hr H. pose proof (correlations_run w r d cl il idx cmap Hr) as Hrun.
    unfold heatmap_of in Hrun.
    destruct (df_temp_of d cl il idx) as [t|e] eqn:Et.
    + exact (Hnever t eq_refl).
    + cbn [rbind] in Hrun. rewrite H in Hrun. discriminate.
Qed.

Lemma correlations_needs_code_columns_witness :
  df_temp_of ids_only country_list indicator_list 0 = Raise KeyError
  /\ fst (correlations 0%nat country_list indicator_list 0 "coolwarm" (world_of ids_only))
     <> Ok tt.
Proof.
  destruct (correlations_needs_code_columns ids_only country_list indicator_list 0
              "coolwarm") as (_ & H2 & H3).
  - left. reflexivity.
  - split.
    + eapply H2; reflexivity.
    + apply (H3 (world_of ids_only) 0%nat). reflexivity.
Defined.

(** ** Bar chart and line chart of one index *)


(** ** What [main] shows *)








